(** * yc-pipiniere-v2: the signup and login forms and the middleware bootstrap

    A shallow embedding of

    - [frontend/src/app/(auth)/login/page.tsx]: the [LoginForm] and
      [SignupForm] components (zod schemas, [validateForm],
      [handleChange], [handleRoleChange], [handleSubmit], the submit
      button);
    - [backend/bootstrap/app.php]: the middleware aliases and the
      middleware priority list;

    and the properties of the specification proved over it. *)

From Stdlib Require Import String Ascii List NArith ZArith Bool Lia.
From stdpp Require Import base option list gmap strings fin_maps.
Import ListNotations.

Local Open Scope string_scope.
Local Open Scope list_scope.

(* ===================================================================== *)
(** ** JavaScript strings *)
(* ===================================================================== *)

(** A JavaScript string value is a sequence of UTF-16 code units; its
    [.length] is the number of code units and [===] compares the
    sequences.  Property names (the keys of object literals and of
    [formErrors]) are written as Rocq strings. *)

Definition code_unit : Type := N.
Definition jsstring : Type := list code_unit.

(** The string value of an ASCII literal of the program text. *)
Definition js (s : string) : jsstring :=
  map N_of_ascii (list_ascii_of_string s).

(** [a === b] on two strings. *)
Definition strict_eq (a b : jsstring) : bool := bool_decide (a = b).

(** Truthiness of a value of type [string | undefined | null]: the empty
    string, [undefined] and [null] are falsy. *)
Definition truthy (v : option jsstring) : bool :=
  match v with
  | Some (_ :: _) => true
  | _ => false
  end.

Definition at_sign : code_unit := 64%N.

(** The characters of a string, as Unicode counts them: a high surrogate
    followed by a low surrogate is one character, any other code unit is
    one by itself.  [.length] does not count these but code units. *)
Definition high_surrogate (c : code_unit) : bool :=
  (55296 <=? c)%N && (c <=? 56319)%N.
Definition low_surrogate (c : code_unit) : bool :=
  (56320 <=? c)%N && (c <=? 57343)%N.

Fixpoint characters (s : jsstring) : nat :=
  match s with
  | [] => 0
  | h :: t =>
      match t with
      | l :: t' =>
          if high_surrogate h && low_surrogate l
          then S (characters t')
          else S (characters t)
      | [] => 1
      end
  end.

(* ===================================================================== *)
(** ** Regular expressions *)
(* ===================================================================== *)

(** The part of the regular expressions of JavaScript that zod's e-mail
    pattern uses: character classes, sequence, alternation, iteration and
    a look-ahead at the start of the pattern (an intersection with the
    complement of a language).  [matches] decides [^r$] by derivatives. *)

Module Regex.

(** A character class: inclusive ranges of code units. *)
Definition CharClass : Type := list (N * N).

Definition in_class (c : code_unit) (cls : CharClass) : bool :=
  existsb (fun r => (fst r <=? c)%N && (c <=? snd r)%N) cls.

Inductive re : Type :=
| Empty                       (* matches nothing *)
| Eps                         (* the empty string *)
| Chr (cls : CharClass)
| Seq (r1 r2 : re)
| Alt (r1 r2 : re)
| Star (r : re)
| And (r1 r2 : re)
| Not (r : re).

Fixpoint nullable (r : re) : bool :=
  match r with
  | Empty => false
  | Eps => true
  | Chr _ => false
  | Seq r1 r2 => nullable r1 && nullable r2
  | Alt r1 r2 => nullable r1 || nullable r2
  | Star _ => true
  | And r1 r2 => nullable r1 && nullable r2
  | Not r => negb (nullable r)
  end.

Fixpoint deriv (c : code_unit) (r : re) : re :=
  match r with
  | Empty => Empty
  | Eps => Empty
  | Chr cls => if in_class c cls then Eps else Empty
  | Seq r1 r2 =>
      Alt (Seq (deriv c r1) r2) (if nullable r1 then deriv c r2 else Empty)
  | Alt r1 r2 => Alt (deriv c r1) (deriv c r2)
  | Star r1 => Seq (deriv c r1) (Star r1)
  | And r1 r2 => And (deriv c r1) (deriv c r2)
  | Not r1 => Not (deriv c r1)
  end.

Fixpoint matches (r : re) (s : jsstring) : bool :=
  match s with
  | [] => nullable r
  | c :: s' => matches (deriv c r) s'
  end.

(** [r+] and [r{2,}]. *)
Definition Plus (r : re) : re := Seq r (Star r).
Definition AtLeast2 (r : re) : re := Seq r (Seq r (Star r)).

(** [(?!la)r] at the start of an anchored pattern: the whole input
    matches [r] and no prefix of it matches [la]. *)
Definition any : CharClass := [(0, 65535)%N].
Definition NotAhead (la r : re) : re :=
  And (Not (Seq la (Star (Chr any)))) r.

(** [needs c r] is a syntactic check that is sufficient for every match
    of [r] to contain the code unit [c]. *)
Fixpoint needs (c : code_unit) (r : re) : bool :=
  match r with
  | Empty => true
  | Eps => false
  | Chr cls => forallb (fun r => (fst r =? c)%N && (snd r =? c)%N) cls
  | Seq r1 r2 => needs c r1 || needs c r2
  | Alt r1 r2 => needs c r1 && needs c r2
  | Star _ => false
  | And r1 r2 => needs c r1 || needs c r2
  | Not _ => false
  end.

End Regex.

(* ===================================================================== *)
(** ** zod *)
(* ===================================================================== *)

(** The parsing of zod 3 for the schemas of the two forms: [z.string()]
    with [min] and [email] checks, [z.enum], [z.object] and [.refine].
    The form state is typed by [z.infer] of its schema, so every field
    holds a string and the type tests of the parsers succeed. *)

Module Zod.
Import Regex.

(** [emailRegex], the pattern of the [email] check, with the flag [i];
    between [^] and [$] it reads, piece by piece:
    - [(?!\.)] and [(?!.*\.\.)]: no dot at the start, no two dots in a row;
    - a capture group around [[A-Z0-9_'+\-\.]*], then [[A-Z0-9_+-]];
    - [@];
    - [([A-Z0-9][A-Z0-9\-]*\.)+], then [[A-Z]{2,}].
    With [i] and without [u] a class of ASCII letters gains exactly the
    letters of the other case. *)
Definition upper : CharClass := [(65, 90)%N].
Definition lower : CharClass := [(97, 122)%N].
Definition digit : CharClass := [(48, 57)%N].
Definition one (s : string) : CharClass :=
  map (fun c => (c, c)) (js s).
Definition alnum : CharClass := upper ++ lower ++ digit.
Definition dot : re := Chr (one ".").
(** [.] without the [s] flag: any code unit but a line terminator. *)
Definition not_newline : CharClass :=
  [(0, 9); (11, 12); (14, 8231); (8234, 65535)]%N.

Definition emailRegex : re :=
  NotAhead dot
    (NotAhead (Seq (Star (Chr not_newline)) (Seq dot dot))
       (Seq (Star (Chr (alnum ++ one "_'+-.")))
       (Seq (Chr (alnum ++ one "_+-"))
       (Seq (Chr (one "@"))
       (Seq (Plus (Seq (Chr alnum)
                  (Seq (Star (Chr (alnum ++ one "-"))) dot)))
            (AtLeast2 (Chr (upper ++ lower)))))))).

Inductive ParseStatus := valid | dirty | aborted.

Record ZodIssue := { path : list string; message : jsstring }.

(** What a [_parse] leaves behind: the status it returns and the issues
    it added to the context, oldest first. *)
Definition ParseReturn : Type := ParseStatus * list ZodIssue.

Definition status (r : ParseReturn) : ParseStatus := fst r.
Definition issues (r : ParseReturn) : list ZodIssue := snd r.

(** [ParseStatus.dirty()]: a status that is not yet aborted becomes dirty. *)
Definition mark_dirty (s : ParseStatus) : ParseStatus :=
  match s with
  | valid => dirty
  | _ => s
  end.

Inductive StringCheck :=
| min (value : nat) (msg : jsstring)
| email (msg : jsstring).

(** One turn of the loop over [this._def.checks] in [ZodString._parse]. *)
Definition run_check (p : list string) (data : jsstring)
           (acc : ParseReturn) (ch : StringCheck) : ParseReturn :=
  match ch with
  | min value msg =>
      if (List.length data <? value)%nat
      then (mark_dirty (status acc),
            issues acc ++ [{| path := p; message := msg |}])
      else acc
  | email msg =>
      if negb (matches emailRegex data)
      then (mark_dirty (status acc),
            issues acc ++ [{| path := p; message := msg |}])
      else acc
  end.

Definition ZodString (checks : list StringCheck)
           (p : list string) (data : jsstring) : ParseReturn :=
  fold_left (run_check p data) checks (valid, []).

(** [joinValues] of zod's util, used by the default message of an enum. *)
Fixpoint joinValues (vs : list jsstring) : jsstring :=
  match vs with
  | [] => []
  | [v] => js "'" ++ v ++ js "'"
  | v :: vs' => js "'" ++ v ++ js "'" ++ js " | " ++ joinValues vs'
  end.

(** [ZodEnum._parse] on a string: a value outside the enum aborts. *)
Definition ZodEnum (values : list jsstring)
           (p : list string) (data : jsstring) : ParseReturn :=
  if existsb (strict_eq data) values
  then (valid, [])
  else (aborted,
        [{| path := p;
            message := js "Invalid enum value. Expected " ++ joinValues values
                       ++ js ", received '" ++ data ++ js "'" |}]).

(** [ZodObject._parse] with [ParseStatus.mergeObjectSync]: every key of
    the shape is parsed, in the order of the shape and with the key
    appended to the path; one aborted value aborts the object, a dirty
    one makes it dirty. *)
Definition merge (s1 s2 : ParseStatus) : ParseStatus :=
  match s1, s2 with
  | aborted, _ | _, aborted => aborted
  | dirty, _ | _, dirty => dirty
  | valid, valid => valid
  end.

Definition ZodObject (shape : list (string * (list string → ParseReturn)))
           (p : list string) : ParseReturn :=
  fold_left
    (fun acc kv =>
       let r := snd kv (p ++ [fst kv]) in
       (merge (status acc) (status r), issues acc ++ issues r))
    shape (valid, []).

(** [ZodEffects._parse] for a refinement: an aborted inner result is
    returned as it is, otherwise the check is run on the parsed value
    and a failed check adds its issue and makes the result dirty. *)
Definition refine (inner : ParseReturn) (check : bool)
           (msg : jsstring) (issue_path : list string)
           (p : list string) : ParseReturn :=
  match status inner with
  | aborted => inner
  | st =>
      if check then inner
      else (mark_dirty st,
            issues inner ++ [{| path := p ++ issue_path; message := msg |}])
  end.

(** [schema.parse(data)] returns the data when the status is [valid]
    and throws a [ZodError] that carries the issues otherwise. *)
Inductive Parsed :=
| ZodError (errors : list ZodIssue)
| Ok.

Definition parse (r : ParseReturn) : Parsed :=
  match status r with
  | valid => Ok
  | _ => ZodError (issues r)
  end.

End Zod.

(* ===================================================================== *)
(** ** Event handlers *)
(* ===================================================================== *)

(** An event handler of a component is a program over the state slots of
    the component ([useState]) that may call [e.preventDefault()],
    [clientFetch.post], [router.push] and [console.log].  A handler reads
    the state of the render that created it and writes through the
    setters; [await clientFetch.post(..)] suspends it until the promise
    settles, and the rest of the handler is the continuation. *)

Module React.

Inductive JSValue :=
| JString (s : jsstring)
| JNumber (n : Z).

(** How the promise of a request settles: the [await] returns, or it
    throws into the [catch] block. *)
Inductive Outcome := fulfilled | rejected.

(** What a handler does to the world outside the component. *)
Inductive Obs :=
| PreventedDefault
| Posted (url : jsstring) (body : gmap string JSValue)
| Pushed (href : jsstring)
| Logged (msg : jsstring).

Inductive Prog (S A : Type) : Type :=
| Ret (a : A)
| SetState (upd : S → S) (k : Prog S A)
| PreventDefault (k : Prog S A)
| AwaitPost (url : jsstring) (body : gmap string JSValue)
            (k : Outcome → Prog S A)
| RouterPush (href : jsstring) (k : Prog S A)
| ConsoleLog (msg : jsstring) (k : Prog S A).

Arguments Ret {S A} a.
Arguments SetState {S A} upd k.
Arguments PreventDefault {S A} k.
Arguments AwaitPost {S A} url body k.
Arguments RouterPush {S A} href k.
Arguments ConsoleLog {S A} msg k.

Fixpoint bind {S A B} (p : Prog S A) (f : A → Prog S B) : Prog S B :=
  match p with
  | Ret a => f a
  | SetState upd k => SetState upd (bind k f)
  | PreventDefault k => PreventDefault (bind k f)
  | AwaitPost url body k => AwaitPost url body (fun o => bind (k o) f)
  | RouterPush href k => RouterPush href (bind k f)
  | ConsoleLog msg k => ConsoleLog msg (bind k f)
  end.

Definition set {S} (upd : S → S) : Prog S unit := SetState upd (Ret tt).
Definition preventDefault {S} : Prog S unit := PreventDefault (Ret tt).
Definition post {S} (url : jsstring) (body : gmap string JSValue)
  : Prog S Outcome := AwaitPost url body Ret.
Definition push {S} (href : jsstring) : Prog S unit := RouterPush href (Ret tt).
Definition log {S} (msg : jsstring) : Prog S unit := ConsoleLog msg (Ret tt).

(** Where a handler stands when control goes back to the event loop. *)
Inductive Paused (S A : Type) : Type :=
| Finished (a : A)
| Awaiting (k : Outcome → Prog S A).
Arguments Finished {S A} a.
Arguments Awaiting {S A} k.

(** Runs a program up to its end or its first [await]: the state it
    leaves, what it did, and where it stands. *)
Fixpoint run {S A} (p : Prog S A) (s : S) : S * list Obs * Paused S A :=
  match p with
  | Ret a => (s, [], Finished a)
  | SetState upd k => run k (upd s)
  | PreventDefault k =>
      let '(s', t, r) := run k s in (s', PreventedDefault :: t, r)
  | AwaitPost url body k => (s, [Posted url body], Awaiting k)
  | RouterPush href k =>
      let '(s', t, r) := run k s in (s', Pushed href :: t, r)
  | ConsoleLog msg k =>
      let '(s', t, r) := run k s in (s', Logged msg :: t, r)
  end.

Definition pending {S A} (r : Paused S A) : list (Outcome → Prog S A) :=
  match r with
  | Finished _ => []
  | Awaiting k => [k]
  end.

Definition is_post (o : Obs) : bool :=
  match o with Posted _ _ => true | _ => false end.
Definition is_push (o : Obs) : bool :=
  match o with Pushed _ => true | _ => false end.

(** A mounted component: its state, the handlers suspended on a request
    that has not settled yet, and everything done so far.  The page
    moves when the user does something the rendered page allows
    ([enabled]) and when a request settles. *)
Section Component.
Context {S UIEvent : Type}.
Variable enabled : S → UIEvent → bool.
Variable handler : S → UIEvent → Prog S unit.

Record Page := {
  state : S;
  inflight : list (Outcome → Prog S unit);
  trace : list Obs;
}.

Inductive Label :=
| User (ev : UIEvent)
| Settled (o : Outcome).

Inductive step : Page → Label → Page → Prop :=
| step_user c ev s' t r :
    enabled (state c) ev = true →
    run (handler (state c) ev) (state c) = (s', t, r) →
    step c (User ev)
         {| state := s'; inflight := inflight c ++ pending r;
            trace := trace c ++ t |}
| step_settled c o k before after s' t r :
    inflight c = before ++ k :: after →
    run (k o) (state c) = (s', t, r) →
    step c (Settled o)
         {| state := s'; inflight := before ++ after ++ pending r;
            trace := trace c ++ t |}.

Definition mount (s : S) : Page :=
  {| state := s; inflight := []; trace := [] |}.

Inductive reachable (s0 : S) : Page → Prop :=
| reach_mount : reachable s0 (mount s0)
| reach_step c l c' : reachable s0 c → step c l c' → reachable s0 c'.
End Component.

Arguments Page : clear implicits.
Arguments Label : clear implicits.

End React.

(** Sequencing of handlers is written with stdpp's monad notation:
    [x ← p; q] and [p;; q]. *)
#[global] Instance Prog_ret {S} : MRet (React.Prog S) := fun _ a => React.Ret a.
#[global] Instance Prog_bind {S} : MBind (React.Prog S) :=
  fun _ _ f p => React.bind p f.

(** The callback of [err.errors.forEach]: [errors[error.path[0]] =
    error.message]; a later issue of a field replaces an earlier one. *)
Definition first_key (p : list string) : string :=
  match p with
  | k :: _ => k
  | [] => "undefined"
  end.

Definition record_issue (errors : gmap string (option jsstring))
           (error : Zod.ZodIssue) : gmap string (option jsstring) :=
  <[first_key (Zod.path error) := Some (Zod.message error)]> errors.

(** [errors[k]] on a [Partial<Record<.., string>>]: a missing key reads
    as [undefined], as does a key that was set to [undefined]. *)
Definition read (errors : gmap string (option jsstring)) (k : string)
  : option jsstring :=
  default None (errors !! k).

(* ===================================================================== *)
(** ** LoginForm *)
(* ===================================================================== *)

Module LoginForm.
Import React.

Record LoginFormData := { email : jsstring; password : jsstring }.

Definition loginSchema (d : LoginFormData) : Zod.ParseReturn :=
  Zod.ZodObject
    [ ("email",
        fun p => Zod.ZodString
                   [Zod.email (js "Please enter a valid email address")]
                   p (email d));
      ("password",
        fun p => Zod.ZodString
                   [Zod.min 8 (js "Password must be at least 8 characters")]
                   p (password d)) ]
    [].

Record State := {
  isLoading : bool;
  error : option jsstring;
  showPassword : bool;
  formData : LoginFormData;
  formErrors : gmap string (option jsstring);
}.

Definition initial : State :=
  {| isLoading := false; error := None; showPassword := false;
     formData := {| email := []; password := [] |};
     formErrors := ∅ |}.

(** The state with one slot replaced: what a setter of [useState]
    does to the component. *)
Definition with_isLoading (b : bool) (s : State) : State :=
  {| isLoading := b; error := error s; showPassword := showPassword s;
     formData := formData s; formErrors := formErrors s |}.
Definition with_error (e : option jsstring) (s : State) : State :=
  {| isLoading := isLoading s; error := e; showPassword := showPassword s;
     formData := formData s; formErrors := formErrors s |}.
Definition with_showPassword (b : bool) (s : State) : State :=
  {| isLoading := isLoading s; error := error s; showPassword := b;
     formData := formData s; formErrors := formErrors s |}.
Definition with_formData (f : LoginFormData → LoginFormData) (s : State)
  : State :=
  {| isLoading := isLoading s; error := error s;
     showPassword := showPassword s;
     formData := f (formData s); formErrors := formErrors s |}.
Definition with_formErrors
           (f : gmap string (option jsstring) → gmap string (option jsstring))
           (s : State) : State :=
  {| isLoading := isLoading s; error := error s;
     showPassword := showPassword s;
     formData := formData s; formErrors := f (formErrors s) |}.

Definition setIsLoading (b : bool) : Prog State unit :=
  set (with_isLoading b).
Definition setError (e : option jsstring) : Prog State unit :=
  set (with_error e).
Definition setShowPassword (b : bool) : Prog State unit :=
  set (with_showPassword b).
(** [setFormData] and [setFormErrors] take an updater [prev => ..]; a
    plain value is the constant updater. *)
Definition setFormData (f : LoginFormData → LoginFormData)
  : Prog State unit :=
  set (with_formData f).
Definition setFormErrors
           (f : gmap string (option jsstring) → gmap string (option jsstring))
  : Prog State unit :=
  set (with_formErrors f).

(** The two inputs that carry [onChange={handleChange}], by their
    [name] attribute. *)
Inductive Input := email_input | password_input.

Definition input_name (i : Input) : string :=
  match i with
  | email_input => "email"
  | password_input => "password"
  end.

(** [{ ...prev, [name]: value }] *)
Definition assign (prev : LoginFormData) (i : Input) (value : jsstring)
  : LoginFormData :=
  match i with
  | email_input => {| email := value; password := password prev |}
  | password_input => {| email := email prev; password := value |}
  end.

Definition handleChange (this : State) (target : Input) (value : jsstring)
  : Prog State unit :=
  setFormData (fun prev => assign prev target value);;
  if truthy (read (formErrors this) (input_name target))
  then setFormErrors (fun prev => <[input_name target := None]> prev)
  else Ret tt.

Definition validateForm (this : State) : Prog State bool :=
  match Zod.parse (loginSchema (formData this)) with
  | Zod.Ok => setFormErrors (fun _ => ∅);; Ret true
  | Zod.ZodError errs =>
      let errors := fold_left record_issue errs ∅ in
      setFormErrors (fun _ => errors);; Ret false
  end.

Definition handleSubmit (this : State) : Prog State unit :=
  preventDefault;;
  ok ← validateForm this;
  if negb ok then Ret tt
  else
    setIsLoading true;;
    setError None;;
    (o ← post (js "/auth/login")
           {[ "email" := JString (email (formData this));
              "password" := JString (password (formData this)) ]};
     match o with
     | fulfilled => push (js "/")
     | rejected =>
         setError (Some (js "Invalid email or password. Please try again."))
     end);;
    setIsLoading false.

(** The submit button is rendered with [disabled={isLoading}]. *)
Definition submit_disabled (this : State) : bool := isLoading this.

Inductive UIEvent :=
| Change (target : Input) (value : jsstring)
| TogglePassword
| Submit.

(** A disabled submit button does not submit its form; the inputs and
    the eye button are always live. *)
Definition enabled (this : State) (ev : UIEvent) : bool :=
  match ev with
  | Submit => negb (submit_disabled this)
  | _ => true
  end.

Definition handler (this : State) (ev : UIEvent) : Prog State unit :=
  match ev with
  | Change target value => handleChange this target value
  | TogglePassword => setShowPassword (negb (showPassword this))
  | Submit => handleSubmit this
  end.

End LoginForm.

(* ===================================================================== *)
(** ** SignupForm *)
(* ===================================================================== *)

Module SignupForm.
Import React.

(** ["client" | "employee"], the type that [z.infer] gives to [role]. *)
Inductive Role := client | employee.

Definition role_value (r : Role) : jsstring :=
  match r with
  | client => js "client"
  | employee => js "employee"
  end.

Record SignupFormData := {
  name : jsstring;
  email : jsstring;
  password : jsstring;
  confirmPassword : jsstring;
  role : Role;
}.

Definition signupSchema (d : SignupFormData) : Zod.ParseReturn :=
  Zod.refine
    (Zod.ZodObject
       [ ("name",
           fun p => Zod.ZodString
                      [Zod.min 2 (js "Name must be at least 2 characters")]
                      p (name d));
         ("email",
           fun p => Zod.ZodString
                      [Zod.email (js "Please enter a valid email address")]
                      p (email d));
         ("password",
           fun p => Zod.ZodString
                      [Zod.min 8 (js "Password must be at least 8 characters")]
                      p (password d));
         ("confirmPassword",
           fun p => Zod.ZodString [] p (confirmPassword d));
         ("role",
           fun p => Zod.ZodEnum [js "client"; js "employee"]
                      p (role_value (role d))) ]
       [])
    (strict_eq (password d) (confirmPassword d))
    (js "Passwords do not match") ["confirmPassword"]
    [].

Record State := {
  isLoading : bool;
  error : option jsstring;
  showPassword : bool;
  showConfirmPassword : bool;
  formData : SignupFormData;
  formErrors : gmap string (option jsstring);
}.

Definition initial : State :=
  {| isLoading := false; error := None;
     showPassword := false; showConfirmPassword := false;
     formData := {| name := []; email := []; password := [];
                    confirmPassword := []; role := client |};
     formErrors := ∅ |}.

Definition with_isLoading (b : bool) (s : State) : State :=
  {| isLoading := b; error := error s; showPassword := showPassword s;
     showConfirmPassword := showConfirmPassword s;
     formData := formData s; formErrors := formErrors s |}.
Definition with_error (e : option jsstring) (s : State) : State :=
  {| isLoading := isLoading s; error := e; showPassword := showPassword s;
     showConfirmPassword := showConfirmPassword s;
     formData := formData s; formErrors := formErrors s |}.
Definition with_showPassword (b : bool) (s : State) : State :=
  {| isLoading := isLoading s; error := error s; showPassword := b;
     showConfirmPassword := showConfirmPassword s;
     formData := formData s; formErrors := formErrors s |}.
Definition with_showConfirmPassword (b : bool) (s : State) : State :=
  {| isLoading := isLoading s; error := error s;
     showPassword := showPassword s; showConfirmPassword := b;
     formData := formData s; formErrors := formErrors s |}.
Definition with_formData (f : SignupFormData → SignupFormData) (s : State)
  : State :=
  {| isLoading := isLoading s; error := error s;
     showPassword := showPassword s;
     showConfirmPassword := showConfirmPassword s;
     formData := f (formData s); formErrors := formErrors s |}.
Definition with_formErrors
           (f : gmap string (option jsstring) → gmap string (option jsstring))
           (s : State) : State :=
  {| isLoading := isLoading s; error := error s;
     showPassword := showPassword s;
     showConfirmPassword := showConfirmPassword s;
     formData := formData s; formErrors := f (formErrors s) |}.

Definition setIsLoading (b : bool) : Prog State unit :=
  set (with_isLoading b).
Definition setError (e : option jsstring) : Prog State unit :=
  set (with_error e).
Definition setShowPassword (b : bool) : Prog State unit :=
  set (with_showPassword b).
Definition setShowConfirmPassword (b : bool) : Prog State unit :=
  set (with_showConfirmPassword b).
Definition setFormData (f : SignupFormData → SignupFormData)
  : Prog State unit :=
  set (with_formData f).
Definition setFormErrors
           (f : gmap string (option jsstring) → gmap string (option jsstring))
  : Prog State unit :=
  set (with_formErrors f).

(** The four inputs that carry [onChange={handleChange}]. *)
Inductive Input :=
| name_input | email_input | password_input | confirmPassword_input.

Definition input_name (i : Input) : string :=
  match i with
  | name_input => "name"
  | email_input => "email"
  | password_input => "password"
  | confirmPassword_input => "confirmPassword"
  end.

(** [{ ...prev, [name]: value }] *)
Definition assign (prev : SignupFormData) (i : Input) (value : jsstring)
  : SignupFormData :=
  match i with
  | name_input =>
      {| name := value; email := email prev; password := password prev;
         confirmPassword := confirmPassword prev; role := role prev |}
  | email_input =>
      {| name := name prev; email := value; password := password prev;
         confirmPassword := confirmPassword prev; role := role prev |}
  | password_input =>
      {| name := name prev; email := email prev; password := value;
         confirmPassword := confirmPassword prev; role := role prev |}
  | confirmPassword_input =>
      {| name := name prev; email := email prev; password := password prev;
         confirmPassword := value; role := role prev |}
  end.

Definition handleChange (this : State) (target : Input) (value : jsstring)
  : Prog State unit :=
  setFormData (fun prev => assign prev target value);;
  if truthy (read (formErrors this) (input_name target))
  then setFormErrors (fun prev => <[input_name target := None]> prev)
  else Ret tt.

(** [value as "client" | "employee"], behind the test
    [value === "client" || value === "employee"]. *)
Definition as_role (value : jsstring) : option Role :=
  if strict_eq value (js "client") then Some client
  else if strict_eq value (js "employee") then Some employee
  else None.

Definition handleRoleChange (this : State) (value : jsstring)
  : Prog State unit :=
  match as_role value with
  | Some r =>
      setFormData
        (fun prev =>
           {| name := name prev; email := email prev;
              password := password prev;
              confirmPassword := confirmPassword prev; role := r |});;
      if truthy (read (formErrors this) "role")
      then setFormErrors (fun prev => <["role" := None]> prev)
      else Ret tt
  | None => Ret tt
  end.

Definition validateForm (this : State) : Prog State bool :=
  match Zod.parse (signupSchema (formData this)) with
  | Zod.Ok => setFormErrors (fun _ => ∅);; Ret true
  | Zod.ZodError errs =>
      let errors := fold_left record_issue errs ∅ in
      setFormErrors (fun _ => errors);; Ret false
  end.

(** [formData.role === "client" ? 3 : 2] *)
Definition roleId (d : SignupFormData) : Z :=
  if strict_eq (role_value (role d)) (js "client") then 3 else 2.

Definition handleSubmit (this : State) : Prog State unit :=
  preventDefault;;
  ok ← validateForm this;
  if negb ok then Ret tt
  else
    setIsLoading true;;
    setError None;;
    (o ← post (js "/auth/signup")
           {[ "name" := JString (name (formData this));
              "email" := JString (email (formData this));
              "password" := JString (password (formData this));
              "password_confirmation" :=
                JString (confirmPassword (formData this));
              "role_id" := JNumber (roleId (formData this)) ]};
     match o with
     | fulfilled => log (js "Signup successful");; push (js "/")
     | rejected =>
         setError (Some (js "Registration failed. Please try again."))
     end);;
    setIsLoading false.

(** The submit button is rendered with [disabled={isLoading}]. *)
Definition submit_disabled (this : State) : bool := isLoading this.

Inductive UIEvent :=
| Change (target : Input) (value : jsstring)
| ClickRole (r : Role)
| TogglePassword
| ToggleConfirmPassword
| Submit.

Definition enabled (this : State) (ev : UIEvent) : bool :=
  match ev with
  | Submit => negb (submit_disabled this)
  | _ => true
  end.

Definition handler (this : State) (ev : UIEvent) : Prog State unit :=
  match ev with
  | Change target value => handleChange this target value
  | ClickRole r => handleRoleChange this (role_value r)
  | TogglePassword => setShowPassword (negb (showPassword this))
  | ToggleConfirmPassword =>
      setShowConfirmPassword (negb (showConfirmPassword this))
  | Submit => handleSubmit this
  end.

End SignupForm.

(* ===================================================================== *)
(** ** backend/bootstrap/app.php *)
(* ===================================================================== *)

Module Bootstrap.

(** The [::class] constants: fully qualified class names. *)
Definition JwtAuth : string := "App\Http\Middleware\JwtAuth".
Definition JwtGuest : string := "App\Http\Middleware\JwtGuest".
Definition isAdmin : string := "App\Http\Middleware\isAdmin".
Definition isEmployee : string := "App\Http\Middleware\isEmployee".
Definition isClient : string := "App\Http\Middleware\isClient".

(** A PHP array literal with string keys: a key written twice keeps
    its last value. *)
Definition php_array (l : list (string * string)) : gmap string string :=
  fold_left (fun m kv => <[fst kv := snd kv]> m) l ∅.

(** The [Middleware] configuration object that [withMiddleware] hands
    to its callback, with the two slots the callback writes. *)
Record Middleware := {
  customAliases : gmap string string;
  priorityList : list string;
}.

Definition alias (aliases : list (string * string)) (m : Middleware)
  : Middleware :=
  {| customAliases := php_array aliases; priorityList := priorityList m |}.

Definition priority (classes : list string) (m : Middleware) : Middleware :=
  {| customAliases := customAliases m; priorityList := classes |}.

(** The callback of [->withMiddleware(function (Middleware $middleware) ..)]. *)
Definition withMiddleware (middleware : Middleware) : Middleware :=
  let middleware :=
    alias [ ("jwt.auth", JwtAuth);
            ("jwt.guest", JwtGuest);
            ("admin", isAdmin);
            ("employee", isEmployee);
            ("client", isClient) ] middleware in
  priority [ JwtAuth; JwtGuest; isAdmin; isEmployee; isClient ] middleware.

(** What the application registers: the callback run on a fresh object. *)
Definition app : Middleware :=
  withMiddleware {| customAliases := ∅; priorityList := [] |}.

(** Modelled from the spec: the framework's use of the priority list;
    the sorter of the framework is missing ("Priority order fixed [..]
    determines evaluation order when multiple middleware apply to one
    route").  Of the middleware classes that apply to a route, those
    that the priority list names are evaluated in the order of the
    list. *)
Definition evaluationOrder (priorityMap route : list string) : list string :=
  filter (fun c => c ∈ route) priorityMap.

(** [a] is evaluated before [b] in the order [l]. *)
Definition before (l : list string) (a b : string) : Prop :=
  ∃ l1 l2 l3, l = l1 ++ a :: l2 ++ b :: l3.

End Bootstrap.

(* ===================================================================== *)
(** ** The middleware classes *)
(* ===================================================================== *)

(** The classes [App\Http\Middleware\*] that [app.php] names are not part
    of the sources, nor are the routes; what follows is written from the
    specification. *)

Module Guards.
Import Bootstrap.

(** Modelled from the spec: the roles of a user of the data model
    ("role (client | employee | admin)"); the user model is missing. *)
Inductive Role := client | employee | admin.

(** Modelled from the spec: a request, of which the guards look at the
    token it carries ("Auth session: represented by a JWT token"); the
    request class is missing. *)
Record Request := {
  bearer : option jsstring;
}.

(** Modelled from the spec: what a request gets back, either the
    rejection of a guard ("rejected (redirect/401, not detailed in
    source)") or the answer of the route handler; the response class
    is missing. *)
Inductive Response :=
| Rejected (by_class : string)
| Handled (content : jsstring).

(** Modelled from the spec: a route, with the aliases of the middleware
    that guard it and its handler; the route files are missing. *)
Record Route := {
  middleware : list string;
  action : Request → jsstring;
}.

Section Handlers.
(** Modelled from the spec: the validation of a token ("issuance/
    validation not shown in provided source"), which is missing: a
    valid token identifies a user, who has a role. *)
Variable verify : jsstring → option Role.

(** Modelled from the spec: the user of a request, [None] when the
    request carries no valid token; the authentication code is
    missing. *)
Definition user (req : Request) : option Role := bearer req ≫= verify.

(** Modelled from the spec: the [handle] methods of the five
    middleware classes, which are missing.  "JwtAuth (must be
    authenticated) and JwtGuest (must NOT be authenticated) are
    mutually exclusive entry checks; isAdmin/isEmployee/isClient
    further restrict by role after authentication succeeds" and
    "unauthenticated access to a protected route is rejected [..];
    authenticated access to guest-only routes [..] is rejected". *)
Definition handle (class : string) (req : Request)
           (next : Request → Response) : Response :=
  if decide (class = JwtAuth) then
    if user req is Some _ then next req else Rejected class
  else if decide (class = JwtGuest) then
    if user req is Some _ then Rejected class else next req
  else if decide (class = isAdmin) then
    if user req is Some admin then next req else Rejected class
  else if decide (class = isEmployee) then
    if user req is Some employee then next req else Rejected class
  else if decide (class = isClient) then
    if user req is Some client then next req else Rejected class
  else next req.

(** Modelled from the spec: the resolution of the middleware of a
    route, by the framework, which is missing: the aliases
    registered in [app.php] name the classes. *)
Definition resolve (names : list string) : list string :=
  omap (fun n => customAliases app !! n) names.

(** Modelled from the spec: the framework's pipeline, which is
    missing: a guard is "a request-intercepting check applied before
    route handling", so each class is handed the request and the
    rest of the pipeline, and the route handler comes last. *)
Definition pipeline (classes : list string)
           (dest : Request → Response) : Request → Response :=
  fold_right (fun class next => fun req => handle class req next)
             dest classes.

(** Modelled from the spec: the framework's dispatch of a request to
    a route, which is missing: the middleware of the route, resolved
    and in the order that the priority list gives them, around the
    route handler. *)
Definition dispatch (route : Route) (req : Request) : Response :=
  pipeline (evaluationOrder (priorityList app) (resolve (middleware route)))
           (fun r => Handled (action route r)) req.
End Handlers.

End Guards.

(* ===================================================================== *)
(** ** What the specification asks of a form *)
(* ===================================================================== *)

Module FormSpec.
Import React.

(** The value a handler returns when it ends without waiting. *)
Definition result {S A} (p : Prog S A) (s : S) : option A :=
  match run p s with
  | (_, _, Finished a) => Some a
  | (_, _, Awaiting _) => None
  end.

(** A suspended handler that, however its request settles and whatever
    the state has become, ends without a second request and leaves the
    loading flag down. *)
Definition settles {S} (isLoading : S → bool)
           (k : Outcome → Prog S unit) : Prop :=
  ∀ o s, ∃ s' t, run (k o) s = (s', t, Finished tt)
                 ∧ isLoading s' = false
                 ∧ filter is_post t = [].

(** One request at a time: on every page that the component can reach
    from its first render, at most one request is in flight; one is in
    flight exactly when the loading flag is up, and then the submit
    button is disabled; and when the request settles the flag is down
    again and nothing is in flight. *)
Definition single_flight {S UIEvent}
           (enabled : S → UIEvent → bool)
           (handler : S → UIEvent → Prog S unit)
           (initial : S) (isLoading submit_disabled : S → bool) : Prop :=
  ∀ c, reachable enabled handler initial c →
       (List.length (inflight c) ≤ 1)%nat
       ∧ (inflight c ≠ [] ↔ isLoading (state c) = true)
       ∧ (isLoading (state c) = true → submit_disabled (state c) = true)
       ∧ (∀ o c', step enabled handler c (Settled o) c' →
                  isLoading (state c') = false ∧ inflight c' = []).

(** A validated submission starts the one request: on a reachable page
    whose submit button is enabled and whose form validates, the
    submit can be taken, and every such step prevents the default
    action, posts one request, leaves one handler waiting on it, raises
    the loading flag and disables the button, so that a second submit
    is not possible; and that request can settle either way, after
    which the flag is down and nothing is in flight. *)
Definition submit_starts {S UIEvent}
           (enabled : S → UIEvent → bool)
           (handler : S → UIEvent → Prog S unit)
           (initial : S) (isLoading submit_disabled : S → bool)
           (submit : UIEvent) (validates : S → Prop) : Prop :=
  ∀ c, reachable enabled handler initial c →
       enabled (state c) submit = true →
       validates (state c) →
       (∃ c', step enabled handler c (User submit) c')
       ∧ ∀ c', step enabled handler c (User submit) c' →
               isLoading (state c') = true
               ∧ submit_disabled (state c') = true
               ∧ enabled (state c') submit = false
               ∧ List.length (inflight c') = 1%nat
               ∧ (∃ url body,
                     trace c' = trace c ++ [PreventedDefault; Posted url body])
               ∧ ∀ o,
                   (∃ c'', step enabled handler c' (Settled o) c'')
                   ∧ ∀ c'', step enabled handler c' (Settled o) c'' →
                            isLoading (state c'') = false
                            ∧ inflight c'' = [].

(** The invariant behind it. *)
Definition flight_inv {S} (isLoading : S → bool) (c : Page S) : Prop :=
  match inflight c with
  | [] => isLoading (state c) = false
  | [k] => isLoading (state c) = true ∧ settles isLoading k
  | _ => False
  end.

End FormSpec.

(** Forms filled in by hand, to run the handlers on. *)
Module Examples.

Definition login (e p : string) : LoginForm.State :=
  {| LoginForm.isLoading := false; LoginForm.error := None;
     LoginForm.showPassword := false;
     LoginForm.formData :=
       {| LoginForm.email := js e; LoginForm.password := js p |};
     LoginForm.formErrors := ∅ |}.

Definition signup (n e p c : string) (r : SignupForm.Role)
  : SignupForm.State :=
  {| SignupForm.isLoading := false; SignupForm.error := None;
     SignupForm.showPassword := false;
     SignupForm.showConfirmPassword := false;
     SignupForm.formData :=
       {| SignupForm.name := js n; SignupForm.email := js e;
          SignupForm.password := js p;
          SignupForm.confirmPassword := js c; SignupForm.role := r |};
     SignupForm.formErrors := ∅ |}.

(** A signup form, valid in every other field, whose name is the one
    character U+1F600: two code units, a surrogate pair. *)
Definition one_character_name : SignupForm.State :=
  {| SignupForm.isLoading := false; SignupForm.error := None;
     SignupForm.showPassword := false;
     SignupForm.showConfirmPassword := false;
     SignupForm.formData :=
       {| SignupForm.name := [55357; 56832]%N;
          SignupForm.email := js "amina@example.com";
          SignupForm.password := js "s3cretpass";
          SignupForm.confirmPassword := js "s3cretpass";
          SignupForm.role := SignupForm.client |};
     SignupForm.formErrors := ∅ |}.

Definition guest_request : Guards.Request := {| Guards.bearer := None |}.
Definition user_request : Guards.Request :=
  {| Guards.bearer := Some (js "token") |}.

(** A verifier that knows one token. *)
Definition verify (t : jsstring) : option Guards.Role :=
  if strict_eq t (js "token") then Some Guards.client else None.

Definition profile : Guards.Route :=
  {| Guards.middleware := ["jwt.auth"; "client"];
     Guards.action := fun _ => js "profile" |}.
Definition login_route : Guards.Route :=
  {| Guards.middleware := ["jwt.guest"];
     Guards.action := fun _ => js "login" |}.

End Examples.

(* ===================================================================== *)
(** ** What the pages show *)
(* ===================================================================== *)

(** The parts of the rendered forms that follow the state: the [value]
    of the controlled inputs, the paragraph under a field, the banner,
    the variant of the role buttons. *)

Module LoginView.
Import LoginForm.

(** [value={formData.email}] and [value={formData.password}] *)
Definition input_value (s : State) (i : Input) : jsstring :=
  match i with
  | email_input => email (formData s)
  | password_input => password (formData s)
  end.

(** [{formErrors.email && <p ..>{formErrors.email}</p>}], and the same
    for [password]: the text under a field, if there is one. *)
Definition field_error (s : State) (key : string) : option jsstring :=
  if truthy (read (formErrors s) key) then read (formErrors s) key else None.

(** [{error && (<Alert ..><AlertDescription>{error}</AlertDescription></Alert>)}] *)
Definition banner (s : State) : option jsstring :=
  if truthy (error s) then error s else None.

(** [type={showPassword ? "text" : "password"}] on the password input *)
Definition password_type (s : State) : jsstring :=
  if showPassword s then js "text" else js "password".

End LoginView.

Module SignupView.
Import SignupForm.

(** [value={formData.name}], .., [value={formData.confirmPassword}] *)
Definition input_value (s : State) (i : Input) : jsstring :=
  match i with
  | name_input => name (formData s)
  | email_input => email (formData s)
  | password_input => password (formData s)
  | confirmPassword_input => confirmPassword (formData s)
  end.

(** [{formErrors.name && <p ..>{formErrors.name}</p>}], and the same
    for [role], [email], [password] and [confirmPassword]. *)
Definition field_error (s : State) (key : string) : option jsstring :=
  if truthy (read (formErrors s) key) then read (formErrors s) key else None.

(** [{error && (<Alert ..><AlertDescription>{error}</AlertDescription></Alert>)}] *)
Definition banner (s : State) : option jsstring :=
  if truthy (error s) then error s else None.

(** [type={showPassword ? "text" : "password"}] on the password input
    and [type={showConfirmPassword ? "text" : "password"}] on the
    confirmation. *)
Definition password_type (s : State) : jsstring :=
  if showPassword s then js "text" else js "password".
Definition confirmPassword_type (s : State) : jsstring :=
  if showConfirmPassword s then js "text" else js "password".

(** [variant={formData.role === "client" ? "default" : "outline"}] on
    the first role button and
    [variant={formData.role === "employee" ? "default" : "outline"}] on
    the second. *)
Definition client_variant (s : State) : jsstring :=
  if strict_eq (role_value (role (formData s))) (js "client")
  then js "default" else js "outline".
Definition employee_variant (s : State) : jsstring :=
  if strict_eq (role_value (role (formData s))) (js "employee")
  then js "default" else js "outline".

End SignupView.

(* ===================================================================== *)
(** ** Playing a page *)
(* ===================================================================== *)

(** The two moves of a page as functions: the user does [ev], and the
    oldest request in flight settles with [o]. *)

Module Play.
Import React.

Section Play.
Context {S UIEvent : Type}.
Variable handler : S → UIEvent → Prog S unit.

Definition user (c : Page S) (ev : UIEvent) : Page S :=
  let '(s', t, r) := run (handler (state c) ev) (state c) in
  {| state := s'; inflight := inflight c ++ pending r;
     trace := trace c ++ t |}.

Definition settle (c : Page S) (o : Outcome) : Page S :=
  match inflight c with
  | [] => c
  | k :: after =>
      let '(s', t, r) := run (k o) (state c) in
      {| state := s'; inflight := after ++ pending r;
         trace := trace c ++ t |}
  end.
End Play.

End Play.

(** The history of a login page and of a signup page, to state what the
    component keeps true over its life. *)
Module LoginPage.
Import React LoginForm.

(** What the rest of a validated [handleSubmit] does once its request
    has settled: the [try] block goes on to [router.push], or the
    [catch] block sets the banner; [finally] lowers the flag. *)
Definition submit_cont (k : Outcome → Prog State unit) : Prop :=
  (∀ s, run (k fulfilled) s
        = (with_isLoading false s, [Pushed (js "/")], Finished tt))
  ∧ (∀ s, run (k rejected) s
          = (with_isLoading false
               (with_error
                  (Some (js "Invalid email or password. Please try again."))
                  s),
             [], Finished tt)).

(** What the page may do to the outside: post an accepted form to
    [/auth/login], push the home route, prevent a default action. *)
Definition allowed (o : Obs) : Prop :=
  match o with
  | PreventedDefault => True
  | Posted url body =>
      url = js "/auth/login"
      ∧ ∃ d, body = {[ "email" := JString (email d);
                       "password" := JString (password d) ]}
             ∧ Zod.parse (loginSchema d) = Zod.Ok
  | Pushed href => href = js "/"
  | Logged _ => False
  end.

Definition page_inv (c : Page State) : Prop :=
  Forall allowed (trace c)
  ∧ match inflight c with
    | [] => isLoading (state c) = false
    | [k] =>
        isLoading (state c) = true
        ∧ error (state c) = None
        ∧ (∀ key, truthy (read (formErrors (state c)) key) = false)
        ∧ submit_cont k
    | _ => False
    end.

(** The page after the user has typed [e] and [p] and pressed the
    button. *)
Definition submitted (e p : string) : Page State :=
  Play.user handler
    (Play.user handler
       (Play.user handler (mount initial) (Change email_input (js e)))
       (Change password_input (js p)))
    Submit.

End LoginPage.

Module SignupPage.
Import React SignupForm.

Definition submit_cont (k : Outcome → Prog State unit) : Prop :=
  (∀ s, run (k fulfilled) s
        = (with_isLoading false s,
           [Logged (js "Signup successful"); Pushed (js "/")], Finished tt))
  ∧ (∀ s, run (k rejected) s
          = (with_isLoading false
               (with_error
                  (Some (js "Registration failed. Please try again.")) s),
             [], Finished tt)).

Definition allowed (o : Obs) : Prop :=
  match o with
  | PreventedDefault => True
  | Posted url body =>
      url = js "/auth/signup"
      ∧ ∃ d, body = {[ "name" := JString (name d);
                       "email" := JString (email d);
                       "password" := JString (password d);
                       "password_confirmation" := JString (confirmPassword d);
                       "role_id" := JNumber (roleId d) ]}
             ∧ Zod.parse (signupSchema d) = Zod.Ok
  | Pushed href => href = js "/"
  | Logged msg => msg = js "Signup successful"
  end.

Definition page_inv (c : Page State) : Prop :=
  Forall allowed (trace c)
  ∧ match inflight c with
    | [] => isLoading (state c) = false
    | [k] =>
        isLoading (state c) = true
        ∧ error (state c) = None
        ∧ (∀ key, truthy (read (formErrors (state c)) key) = false)
        ∧ submit_cont k
    | _ => False
    end.

(** The page after the user has chosen the role [r], typed the four
    fields and pressed the button. *)
Definition submitted (n e p c : string) (r : Role) : Page State :=
  Play.user handler
    (Play.user handler
       (Play.user handler
          (Play.user handler
             (Play.user handler
                (Play.user handler (mount initial) (ClickRole r))
                (Change name_input (js n)))
             (Change email_input (js e)))
          (Change password_input (js p)))
       (Change confirmPassword_input (js c)))
    Submit.

End SignupPage.

(* ===================================================================== *)
(** ** The model at work *)
(* ===================================================================== *)

Module Runs.
Import React.

Example email_accepts :
  map (fun s => Regex.matches Zod.emailRegex (js s))
      ["you@example.com"; "A.b-c+d@Ex-ample.Co.UK"; "o'neil@mail.ie"]
  = [true; true; true].
Proof. vm_compute. reflexivity. Qed.

Example email_rejects :
  map (fun s => Regex.matches Zod.emailRegex (js s))
      [""; "you.example.com"; ".you@example.com"; "y..ou@example.com";
       "you.@example.com"; "you@example"; "you@example.c"; "you@@example.com";
       "you@-example.com"; "y,ou@example.com"; "you@example.com "]
  = [false; false; false; false; false; false; false; false; false; false;
     false].
Proof. vm_compute. reflexivity. Qed.

(** Both fields of the login form wrong: one issue each, in the order
    of the shape. *)
Example login_two_issues :
  Zod.parse (LoginForm.loginSchema
               {| LoginForm.email := js "you"; LoginForm.password := js "short" |})
  = Zod.ZodError
      [ {| Zod.path := ["email"];
           Zod.message := js "Please enter a valid email address" |};
        {| Zod.path := ["password"];
           Zod.message := js "Password must be at least 8 characters" |} ].
Proof. vm_compute. reflexivity. Qed.

(** Everything wrong on the signup form: the refinement still runs and
    its issue comes last. *)
Example signup_four_issues :
  Zod.parse (SignupForm.signupSchema
               (SignupForm.formData
                  (Examples.signup "A" "amina" "short" "shorter"
                     SignupForm.client)))
  = Zod.ZodError
      [ {| Zod.path := ["name"];
           Zod.message := js "Name must be at least 2 characters" |};
        {| Zod.path := ["email"];
           Zod.message := js "Please enter a valid email address" |};
        {| Zod.path := ["password"];
           Zod.message := js "Password must be at least 8 characters" |};
        {| Zod.path := ["confirmPassword"];
           Zod.message := js "Passwords do not match" |} ].
Proof. vm_compute. reflexivity. Qed.

Example signup_accepts :
  Zod.parse (SignupForm.signupSchema
               (SignupForm.formData
                  (Examples.signup "Amina" "amina@example.com" "s3cretpass"
                     "s3cretpass" SignupForm.employee)))
  = Zod.Ok.
Proof. vm_compute. reflexivity. Qed.

(** The length of a name is counted in code units: one character
    outside the basic plane is a surrogate pair and passes [min(2)]. *)
Example name_of_one_surrogate_pair :
  Zod.ZodString [Zod.min 2 (js "Name must be at least 2 characters")]
    ["name"] [55357; 56832]%N
  = (Zod.valid, []).
Proof. reflexivity. Qed.

(** A rejected login: the handler that waits is resumed with
    [rejected]; it sets the banner and lowers the flag. *)
Example login_rejected :
  let this := Examples.login "you@example.com" "12345678" in
  match run (LoginForm.handleSubmit this) this with
  | (s1, _, Awaiting k) =>
      let '(s2, t, _) := run (k rejected) s1 in
      (LoginForm.isLoading s1, LoginForm.isLoading s2, LoginForm.error s2, t)
  | _ => (false, true, None, [])
  end
  = (true, false,
     Some (js "Invalid email or password. Please try again."), []).
Proof. vm_compute. reflexivity. Qed.

(** Typing into a field that shows an error clears that error. *)
Example change_clears_error :
  let this := Examples.login "you" "12345678" in
  let '(s1, _, _) := run (LoginForm.validateForm this) this in
  let '(s2, _, _) :=
    run (LoginForm.handleChange s1 LoginForm.email_input (js "you@"))  s1 in
  (read (LoginForm.formErrors s1) "email", read (LoginForm.formErrors s2) "email",
   LoginForm.email (LoginForm.formData s2))
  = (Some (js "Please enter a valid email address"), None, js "you@").
Proof. vm_compute. reflexivity. Qed.

Example profile_of_a_client :
  Guards.dispatch Examples.verify Examples.profile Examples.user_request
  = Guards.Handled (js "profile").
Proof. vm_compute. reflexivity. Qed.

Example login_route_of_a_guest :
  Guards.dispatch Examples.verify Examples.login_route Examples.guest_request
  = Guards.Handled (js "login").
Proof. vm_compute. reflexivity. Qed.

End Runs.

(* ===================================================================== *)
(** ** Properties: regular expressions and zod *)
(* ===================================================================== *)

Module RegexFacts.
Import Regex.

Lemma needs_not_nullable c r : needs c r = true → nullable r = false.
Proof.
  induction r as [| |cls|r1 IH1 r2 IH2|r1 IH1 r2 IH2|r IH|r1 IH1 r2 IH2|r IH];
    simpl; intros H; try discriminate; try reflexivity.
  - apply orb_true_iff in H as [H|H];
      [rewrite (IH1 H) | rewrite (IH2 H), andb_false_r]; reflexivity.
  - apply andb_true_iff in H as [H1 H2].
    rewrite (IH1 H1), (IH2 H2). reflexivity.
  - apply orb_true_iff in H as [H|H];
      [rewrite (IH1 H) | rewrite (IH2 H), andb_false_r]; reflexivity.
Qed.

Lemma singleton_class_excludes c a cls :
  forallb (fun r => (fst r =? c)%N && (snd r =? c)%N) cls = true →
  a ≠ c → in_class a cls = false.
Proof.
  intros Hall Hne. unfold in_class.
  induction cls as [|[lo hi] cls IH]; simpl in *; [reflexivity|].
  apply andb_true_iff in Hall as [Hr Hall].
  apply andb_true_iff in Hr as [Hlo Hhi].
  apply N.eqb_eq in Hlo, Hhi. subst lo hi.
  rewrite (IH Hall), orb_false_r.
  destruct (N.leb_spec c a), (N.leb_spec a c); simpl; try reflexivity.
  exfalso. apply Hne. lia.
Qed.

Lemma needs_deriv c a r : needs c r = true → a ≠ c → needs c (deriv a r) = true.
Proof.
  intros H Hne.
  induction r as [| |cls|r1 IH1 r2 IH2|r1 IH1 r2 IH2|r IH|r1 IH1 r2 IH2|r IH];
    simpl in *; try discriminate; try reflexivity.
  - rewrite (singleton_class_excludes c a cls H Hne). reflexivity.
  - apply orb_true_iff in H as [H|H].
    + rewrite (IH1 H), (needs_not_nullable _ _ H). reflexivity.
    + rewrite H, orb_true_r. destruct (nullable r1); simpl; auto.
  - apply andb_true_iff in H as [H1 H2].
    rewrite (IH1 H1), (IH2 H2). reflexivity.
  - apply orb_true_iff in H as [H|H];
      [rewrite (IH1 H) | rewrite (IH2 H), orb_true_r]; reflexivity.
Qed.

(** A pattern that needs [c] matches only inputs that contain [c]. *)
Lemma needs_matches c r s : needs c r = true → matches r s = true → c ∈ s.
Proof.
  revert r. induction s as [|a s IH]; simpl; intros r Hn Hm.
  - rewrite (needs_not_nullable _ _ Hn) in Hm. discriminate.
  - destruct (decide (a = c)) as [->|Hne]; [left|].
    right. apply (IH (deriv a r)); [apply needs_deriv|]; assumption.
Qed.

End RegexFacts.

Module ZodFacts.
Import Zod.

(** An address that passes zod's e-mail pattern contains the sign [@]. *)
Lemma emailRegex_at s : Regex.matches emailRegex s = true → at_sign ∈ s.
Proof. apply RegexFacts.needs_matches. reflexivity. Qed.

Lemma merge_valid_r st : merge st valid = st.
Proof. destruct st; reflexivity. Qed.

Lemma mark_dirty_not_aborted st : st ≠ aborted → mark_dirty st ≠ aborted.
Proof. destruct st; simpl; congruence. Qed.

Lemma run_check_not_aborted p data acc ch :
  status acc ≠ aborted → status (run_check p data acc ch) ≠ aborted.
Proof.
  intros H. destruct ch; simpl;
    match goal with |- context [if ?b then _ else _] => destruct b end;
    simpl; auto using mark_dirty_not_aborted.
Qed.

(** A string never aborts the parse of a [z.string()]. *)
Lemma ZodString_not_aborted checks p data :
  status (ZodString checks p data) ≠ aborted.
Proof.
  unfold ZodString.
  assert (H : status ((valid, []) : ParseReturn) ≠ aborted) by (simpl; congruence).
  revert H. generalize ((valid, []) : ParseReturn).
  induction checks as [|ch checks IH]; simpl; intros acc H; [exact H|].
  apply IH, run_check_not_aborted, H.
Qed.

(** The three string schemas of the forms, written out. *)
Lemma ZodString_min n msg p data :
  ZodString [min n msg] p data =
    if (List.length data <? n)%nat
    then (dirty, [{| path := p; message := msg |}])
    else (valid, []).
Proof. unfold ZodString; simpl. destruct (_ <? _)%nat; reflexivity. Qed.

Lemma ZodString_email msg p data :
  ZodString [email msg] p data =
    if Regex.matches emailRegex data
    then (valid, [])
    else (dirty, [{| path := p; message := msg |}]).
Proof.
  unfold ZodString; simpl. destruct (Regex.matches _ _); reflexivity.
Qed.

Lemma ZodString_plain p data : ZodString [] p data = (valid, []).
Proof. reflexivity. Qed.

End ZodFacts.

(** *** The error object that [validateForm] builds *)

Lemma record_issues_snoc errs i m :
  fold_left record_issue (errs ++ [i]) m
  = record_issue (fold_left record_issue errs m) i.
Proof. apply fold_left_app. Qed.

Lemma read_record_issue_eq m i k :
  first_key (Zod.path i) = k →
  read (record_issue m i) k = Some (Zod.message i).
Proof.
  intros <-. unfold read, record_issue. rewrite lookup_insert_eq. reflexivity.
Qed.

Lemma read_record_issue_ne m i k :
  first_key (Zod.path i) ≠ k →
  read (record_issue m i) k = read m k.
Proof.
  intros H. unfold read, record_issue. rewrite lookup_insert_ne by exact H.
  reflexivity.
Qed.

(** A key that no later issue names keeps what was recorded for it. *)
Lemma read_record_issues_other errs m k :
  Forall (fun i => first_key (Zod.path i) ≠ k) errs →
  read (fold_left record_issue errs m) k = read m k.
Proof.
  revert m. induction errs as [|i errs IH]; simpl; intros m H; [reflexivity|].
  inversion H; subst. rewrite IH by assumption.
  apply read_record_issue_ne. assumption.
Qed.

(** *** Running handlers *)

Module RunFacts.
Import React.

Lemma run_bind {S A B} (p : Prog S A) (f : A → Prog S B) s :
  run (bind p f) s =
    match run p s with
    | (s', t, Finished a) =>
        let '(s'', t', r) := run (f a) s' in (s'', t ++ t', r)
    | (s', t, Awaiting k) => (s', t, Awaiting (fun o => bind (k o) f))
    end.
Proof.
  revert s. induction p as [a|upd k IH|k IH|url body k IH|href k IH|msg k IH];
    intros s; simpl.
  - destruct (run (f a) s) as [[s'' t'] r]. reflexivity.
  - apply IH.
  - rewrite IH. destruct (run k s) as [[s' t] [a|k']]; [|reflexivity].
    destruct (run (f a) s') as [[s'' t'] r]. reflexivity.
  - reflexivity.
  - rewrite IH. destruct (run k s) as [[s' t] [a|k']]; [|reflexivity].
    destruct (run (f a) s') as [[s'' t'] r]. reflexivity.
  - rewrite IH. destruct (run k s) as [[s' t] [a|k']]; [|reflexivity].
    destruct (run (f a) s') as [[s'' t'] r]. reflexivity.
Qed.

End RunFacts.

(* ===================================================================== *)
(** ** Properties: LoginForm *)
(* ===================================================================== *)

Module LoginFacts.
Import React FormSpec LoginForm.

(** The issues of the login schema, field by field. *)
Lemma loginSchema_eq d :
  loginSchema d =
    let e := Zod.ZodString
               [Zod.email (js "Please enter a valid email address")]
               ["email"] (email d) in
    let p := Zod.ZodString
               [Zod.min 8 (js "Password must be at least 8 characters")]
               ["password"] (password d) in
    (Zod.merge (Zod.merge Zod.valid (Zod.status e)) (Zod.status p),
     Zod.issues e ++ Zod.issues p).
Proof. reflexivity. Qed.

(** The login schema accepts exactly an e-mail address with a password
    of eight code units or more. *)
Lemma login_schema_check d :
  Zod.parse (loginSchema d) = Zod.Ok ↔
    Regex.matches Zod.emailRegex (email d) = true
    ∧ (8 ≤ List.length (password d))%nat.
Proof.
  rewrite loginSchema_eq, ZodFacts.ZodString_email, ZodFacts.ZodString_min.
  destruct (Regex.matches _ _); destruct (Nat.ltb_spec (List.length (password d)) 8);
    cbn; split; try discriminate; try (intros [? ?]; try discriminate; lia);
    intros _; split; (reflexivity || lia).
Qed.

Lemma login_validateForm_true this s :
  Zod.parse (loginSchema (formData this)) = Zod.Ok →
  run (validateForm this) s
  = (with_formErrors (fun _ => ∅) s, [], Finished true).
Proof. intros H. unfold validateForm. rewrite H. reflexivity. Qed.

Lemma login_validateForm_false this s errs :
  Zod.parse (loginSchema (formData this)) = Zod.ZodError errs →
  run (validateForm this) s
  = (with_formErrors (fun _ => fold_left record_issue errs ∅) s, [],
     Finished false).
Proof. intros H. unfold validateForm. rewrite H. reflexivity. Qed.

Lemma login_validateForm_result this s :
  result (validateForm this) s
  = Some (if Zod.parse (loginSchema (formData this)) is Zod.Ok
          then true else false).
Proof.
  unfold result, validateForm.
  destruct (Zod.parse _); reflexivity.
Qed.

(** The rest of [handleSubmit] once the request has settled. *)
Lemma login_handleSubmit_valid this s :
  Zod.parse (loginSchema (formData this)) = Zod.Ok →
  ∃ k,
    run (handleSubmit this) s
    = (with_error None (with_isLoading true (with_formErrors (fun _ => ∅) s)),
       [PreventedDefault;
        Posted (js "/auth/login")
          {[ "email" := JString (email (formData this));
             "password" := JString (password (formData this)) ]}],
       Awaiting k)
    ∧ (∀ s1, run (k fulfilled) s1
             = (with_isLoading false s1, [Pushed (js "/")], Finished tt))
    ∧ (∀ s1, run (k rejected) s1
             = (with_isLoading false
                  (with_error
                     (Some (js "Invalid email or password. Please try again."))
                     s1),
                [], Finished tt)).
Proof.
  intros H. unfold handleSubmit, validateForm. rewrite H.
  eexists. split; [reflexivity|]. split; intros s1; reflexivity.
Qed.

Lemma login_handleSubmit_invalid this s errs :
  Zod.parse (loginSchema (formData this)) = Zod.ZodError errs →
  run (handleSubmit this) s
  = (with_formErrors (fun _ => fold_left record_issue errs ∅) s,
     [PreventedDefault], Finished tt).
Proof.
  intros H. unfold handleSubmit, validateForm. rewrite H. reflexivity.
Qed.

End LoginFacts.

(** C3.  A login form whose e-mail field holds no [@]: [validateForm]
    returns [false] and the errors it records carry, under the key
    [email], the message of the e-mail check. *)
Theorem login_email_without_at (this s : LoginForm.State) :
  at_sign ∉ LoginForm.email (LoginForm.formData this) →
  ∃ s',
    React.run (LoginForm.validateForm this) s = (s', [], React.Finished false)
    ∧ read (LoginForm.formErrors s') "email"
      = Some (js "Please enter a valid email address").
Proof.
  intros Hat.
  assert (Hre : Regex.matches Zod.emailRegex
                  (LoginForm.email (LoginForm.formData this)) = false).
  { destruct (Regex.matches _ _) eqn:E; [|reflexivity].
    destruct Hat. apply ZodFacts.emailRegex_at, E. }
  assert (Hp : ∃ errs,
             Zod.parse (LoginForm.loginSchema (LoginForm.formData this))
             = Zod.ZodError errs
             ∧ read (fold_left record_issue errs ∅) "email"
               = Some (js "Please enter a valid email address")).
  { rewrite LoginFacts.loginSchema_eq, ZodFacts.ZodString_email, Hre,
      ZodFacts.ZodString_min.
    destruct (_ <? _)%nat; cbn -[js]; eexists; (split; [reflexivity|]);
      cbn -[js]; unfold read, record_issue; cbn -[js];
      by simplify_map_eq. }
  destruct Hp as (errs & Hparse & Hread).
  eexists. split; [apply LoginFacts.login_validateForm_false, Hparse|].
  exact Hread.
Qed.

Lemma login_email_without_at_witness :
  ∃ s',
    React.run (LoginForm.validateForm (Examples.login "you.example.com" "12345678"))
      LoginForm.initial
    = (s', [], React.Finished false)
    ∧ read (LoginForm.formErrors s') "email"
      = Some (js "Please enter a valid email address").
Proof.
  apply (login_email_without_at
           (Examples.login "you.example.com" "12345678") LoginForm.initial).
  vm_compute. intros H.
  repeat (apply elem_of_cons in H as [H|H]; [discriminate H|]).
  by apply not_elem_of_nil in H.
Defined.

(* ===================================================================== *)
(** ** Properties: SignupForm *)
(* ===================================================================== *)

Module SignupFacts.
Import React FormSpec SignupForm.

(** The role of a form is one of the two values of the enum. *)
Lemma role_enum_valid r p :
  Zod.ZodEnum [js "client"; js "employee"] p (role_value r) = (Zod.valid, []).
Proof. destruct r; vm_compute; reflexivity. Qed.

Lemma roleId_eq d :
  roleId d = match role d with client => 3%Z | employee => 2%Z end.
Proof. unfold roleId. destruct (role d); vm_compute; reflexivity. Qed.

Lemma as_role_value r : as_role (role_value r) = Some r.
Proof. destruct r; vm_compute; reflexivity. Qed.

(** The issues of the signup schema: those of the three checked fields,
    then the one of the refinement. *)
Lemma signupSchema_eq d :
  signupSchema d =
    let n := Zod.ZodString
               [Zod.min 2 (js "Name must be at least 2 characters")]
               ["name"] (name d) in
    let e := Zod.ZodString
               [Zod.email (js "Please enter a valid email address")]
               ["email"] (email d) in
    let p := Zod.ZodString
               [Zod.min 8 (js "Password must be at least 8 characters")]
               ["password"] (password d) in
    Zod.refine
      (Zod.merge (Zod.merge (Zod.merge Zod.valid (Zod.status n))
                    (Zod.status e)) (Zod.status p),
       Zod.issues n ++ Zod.issues e ++ Zod.issues p)
      (strict_eq (password d) (confirmPassword d))
      (js "Passwords do not match") ["confirmPassword"] [].
Proof.
  unfold signupSchema, Zod.ZodObject. cbn [fold_left fst snd app].
  rewrite role_enum_valid, ZodFacts.ZodString_plain.
  cbn [Zod.status Zod.issues fst snd].
  rewrite !ZodFacts.merge_valid_r, !app_nil_r, <- !app_assoc.
  reflexivity.
Qed.

(** The signup schema accepts exactly: a name of two code units or
    more, an e-mail address, a password of eight code units or more,
    and a confirmation equal to the password. *)
Lemma signup_schema_check d :
  Zod.parse (signupSchema d) = Zod.Ok ↔
    (2 ≤ List.length (name d))%nat
    ∧ Regex.matches Zod.emailRegex (email d) = true
    ∧ (8 ≤ List.length (password d))%nat
    ∧ password d = confirmPassword d.
Proof.
  rewrite signupSchema_eq, ZodFacts.ZodString_email, !ZodFacts.ZodString_min.
  unfold strict_eq.
  destruct (Nat.ltb_spec (List.length (name d)) 2);
    destruct (Regex.matches _ _);
    destruct (Nat.ltb_spec (List.length (password d)) 8);
    destruct (bool_decide_reflect (password d = confirmPassword d));
    cbn; split; try discriminate;
    try (intros (? & ? & ? & ?); try discriminate; try contradiction; lia);
    intros _; repeat split; (reflexivity || assumption || lia).
Qed.

Lemma signup_validateForm_true this s :
  Zod.parse (signupSchema (formData this)) = Zod.Ok →
  run (validateForm this) s
  = (with_formErrors (fun _ => ∅) s, [], Finished true).
Proof. intros H. unfold validateForm. rewrite H. reflexivity. Qed.

Lemma signup_validateForm_false this s errs :
  Zod.parse (signupSchema (formData this)) = Zod.ZodError errs →
  run (validateForm this) s
  = (with_formErrors (fun _ => fold_left record_issue errs ∅) s, [],
     Finished false).
Proof. intros H. unfold validateForm. rewrite H. reflexivity. Qed.

Lemma signup_validateForm_result this s :
  result (validateForm this) s
  = Some (if Zod.parse (signupSchema (formData this)) is Zod.Ok
          then true else false).
Proof.
  unfold result, validateForm.
  destruct (Zod.parse _); reflexivity.
Qed.

Lemma signup_handleSubmit_valid this s :
  Zod.parse (signupSchema (formData this)) = Zod.Ok →
  ∃ k,
    run (handleSubmit this) s
    = (with_error None (with_isLoading true (with_formErrors (fun _ => ∅) s)),
       [PreventedDefault;
        Posted (js "/auth/signup")
          {[ "name" := JString (name (formData this));
             "email" := JString (email (formData this));
             "password" := JString (password (formData this));
             "password_confirmation" :=
               JString (confirmPassword (formData this));
             "role_id" := JNumber (roleId (formData this)) ]}],
       Awaiting k)
    ∧ (∀ s1, run (k fulfilled) s1
             = (with_isLoading false s1,
                [Logged (js "Signup successful"); Pushed (js "/")],
                Finished tt))
    ∧ (∀ s1, run (k rejected) s1
             = (with_isLoading false
                  (with_error
                     (Some (js "Registration failed. Please try again."))
                     s1),
                [], Finished tt)).
Proof.
  intros H. unfold handleSubmit, validateForm. rewrite H.
  eexists. split; [reflexivity|]. split; intros s1; reflexivity.
Qed.

Lemma signup_handleSubmit_invalid this s errs :
  Zod.parse (signupSchema (formData this)) = Zod.ZodError errs →
  run (handleSubmit this) s
  = (with_formErrors (fun _ => fold_left record_issue errs ∅) s,
     [PreventedDefault], Finished tt).
Proof.
  intros H. unfold handleSubmit, validateForm. rewrite H. reflexivity.
Qed.

End SignupFacts.

(** C1.  A signup submission that passes validation posts to
    [/auth/signup] a body whose [role_id] is 3 when the selected role is
    [client] and 2 when it is [employee]. *)
Theorem signup_role_id (this s : SignupForm.State) :
  FormSpec.result (SignupForm.validateForm this) s = Some true →
  ∃ s' body k,
    React.run (SignupForm.handleSubmit this) s
    = (s', [React.PreventedDefault; React.Posted (js "/auth/signup") body],
       React.Awaiting k)
    ∧ body !! "role_id"
      = Some (React.JNumber
                match SignupForm.role (SignupForm.formData this) with
                | SignupForm.client => 3
                | SignupForm.employee => 2
                end).
Proof.
  rewrite SignupFacts.signup_validateForm_result. intros Hok.
  destruct (Zod.parse _) as [errs|] eqn:Hparse; [discriminate|].
  destruct (SignupFacts.signup_handleSubmit_valid this s Hparse) as (k & Hrun & _).
  eexists _, _, k. split; [exact Hrun|].
  rewrite <- SignupFacts.roleId_eq. by simplify_map_eq.
Qed.

Lemma signup_role_id_witness :
  (∃ s' body k,
     React.run (SignupForm.handleSubmit
                  (Examples.signup "Amina" "amina@example.com" "s3cretpass"
                     "s3cretpass" SignupForm.client))
       SignupForm.initial
     = (s', [React.PreventedDefault; React.Posted (js "/auth/signup") body],
        React.Awaiting k)
     ∧ body !! "role_id" = Some (React.JNumber 3))
  ∧ (∃ s' body k,
       React.run (SignupForm.handleSubmit
                    (Examples.signup "Amina" "amina@example.com" "s3cretpass"
                       "s3cretpass" SignupForm.employee))
         SignupForm.initial
       = (s', [React.PreventedDefault; React.Posted (js "/auth/signup") body],
          React.Awaiting k)
       ∧ body !! "role_id" = Some (React.JNumber 2)).
Proof.
  split.
  - apply (signup_role_id
             (Examples.signup "Amina" "amina@example.com" "s3cretpass"
                "s3cretpass" SignupForm.client) SignupForm.initial).
    vm_compute. reflexivity.
  - apply (signup_role_id
             (Examples.signup "Amina" "amina@example.com" "s3cretpass"
                "s3cretpass" SignupForm.employee) SignupForm.initial).
    vm_compute. reflexivity.
Defined.

(** C2.  A signup form whose password and confirmation differ:
    [validateForm] returns [false] and the errors it records carry, under
    the key [confirmPassword], the message "Passwords do not match". *)
Theorem signup_password_mismatch (this s : SignupForm.State) :
  SignupForm.password (SignupForm.formData this)
  ≠ SignupForm.confirmPassword (SignupForm.formData this) →
  ∃ s',
    React.run (SignupForm.validateForm this) s = (s', [], React.Finished false)
    ∧ read (SignupForm.formErrors s') "confirmPassword"
      = Some (js "Passwords do not match").
Proof.
  intros Hne.
  assert (Hp : ∃ errs,
             Zod.parse (SignupForm.signupSchema (SignupForm.formData this))
             = Zod.ZodError (errs ++ [{| Zod.path := ["confirmPassword"];
                                 Zod.message := js "Passwords do not match" |}])).
  { rewrite SignupFacts.signupSchema_eq, ZodFacts.ZodString_email,
      !ZodFacts.ZodString_min.
    unfold strict_eq. rewrite bool_decide_eq_false_2 by exact Hne.
    destruct (_ <? 2)%nat, (Regex.matches _ _), (_ <? 8)%nat;
      cbn -[js app]; eexists; reflexivity. }
  destruct Hp as (errs & Hparse).
  eexists. split; [apply SignupFacts.signup_validateForm_false, Hparse|].
  cbn [SignupForm.formErrors SignupForm.with_formErrors].
  rewrite record_issues_snoc. apply read_record_issue_eq. reflexivity.
Qed.

Lemma signup_password_mismatch_witness :
  ∃ s',
    React.run (SignupForm.validateForm
                 (Examples.signup "Amina" "amina@example.com" "s3cretpass"
                    "s3cretpast" SignupForm.client))
      SignupForm.initial
    = (s', [], React.Finished false)
    ∧ read (SignupForm.formErrors s') "confirmPassword"
      = Some (js "Passwords do not match").
Proof.
  apply (signup_password_mismatch
           (Examples.signup "Amina" "amina@example.com" "s3cretpass"
              "s3cretpast" SignupForm.client) SignupForm.initial).
  vm_compute. discriminate.
Defined.

(** Counting characters is not counting code units: a string has at
    most as many characters as code units. *)
Lemma characters_le_length (s : jsstring) :
  (characters s ≤ List.length s)%nat.
Proof.
  assert (H : (characters s ≤ List.length s)%nat
              ∧ ∀ h, (characters (h :: s) ≤ S (List.length s))%nat).
  { induction s as [|a s [IH1 IH2]].
    - split; [apply le_n | intros h; apply le_n].
    - split; [apply IH2|].
      intros h. specialize (IH2 a).
      change (characters (h :: a :: s))
        with (if high_surrogate h && low_surrogate a
              then S (characters s) else S (characters (a :: s))).
      cbn [List.length].
      destruct (high_surrogate h && low_surrogate a); lia. }
  apply H.
Qed.

(** C10.  A signup form whose name has fewer than two code units:
    [validateForm] returns [false] and the errors it records carry, under
    the key [name], the message of the length check, whatever the other
    fields hold. *)
Theorem signup_short_name (this s : SignupForm.State) :
  (List.length (SignupForm.name (SignupForm.formData this)) < 2)%nat →
  ∃ s',
    React.run (SignupForm.validateForm this) s = (s', [], React.Finished false)
    ∧ read (SignupForm.formErrors s') "name"
      = Some (js "Name must be at least 2 characters").
Proof.
  intros Hlen.
  assert (Hp : ∃ errs,
             Zod.parse (SignupForm.signupSchema (SignupForm.formData this))
             = Zod.ZodError ({| Zod.path := ["name"];
                        Zod.message := js "Name must be at least 2 characters" |}
                     :: errs)
             ∧ Forall (fun i => first_key (Zod.path i) ≠ "name") errs).
  { rewrite SignupFacts.signupSchema_eq, ZodFacts.ZodString_email,
      !ZodFacts.ZodString_min.
    apply Nat.ltb_lt in Hlen. rewrite Hlen.
    destruct (Regex.matches _ _), (_ <? 8)%nat, (strict_eq _ _);
      cbn -[js]; eexists; (split; [reflexivity|]);
      repeat constructor; discriminate. }
  destruct Hp as (errs & Hparse & Hother).
  eexists. split; [apply SignupFacts.signup_validateForm_false, Hparse|].
  cbn [SignupForm.formErrors SignupForm.with_formErrors fold_left].
  rewrite read_record_issues_other by exact Hother.
  apply read_record_issue_eq. reflexivity.
Qed.

Lemma signup_short_name_witness :
  ∃ s',
    React.run (SignupForm.validateForm
                 (Examples.signup "A" "amina@example.com" "s3cretpass"
                    "s3cretpass" SignupForm.employee))
      SignupForm.initial
    = (s', [], React.Finished false)
    ∧ read (SignupForm.formErrors s') "name"
      = Some (js "Name must be at least 2 characters").
Proof.
  apply (signup_short_name
           (Examples.signup "A" "amina@example.com" "s3cretpass"
              "s3cretpass" SignupForm.employee) SignupForm.initial).
  vm_compute. lia.
Defined.

(** C10, with the length of the name counted in characters.  A name of
    one character outside the basic plane has fewer than two characters,
    yet it has two code units: [validateForm] returns [true] and records
    nothing under the key [name]. *)
Lemma signup_short_name_counterexample :
  (characters (SignupForm.name (SignupForm.formData Examples.one_character_name))
   < 2)%nat
  ∧ ∃ s',
      React.run (SignupForm.validateForm Examples.one_character_name)
        Examples.one_character_name
      = (s', [], React.Finished true)
      ∧ read (SignupForm.formErrors s') "name" = None.
Proof.
  split.
  - vm_compute. lia.
  - eexists. split; vm_compute; reflexivity.
Qed.

(* ===================================================================== *)
(** ** Properties: the requests of a form *)
(* ===================================================================== *)

Module FlightFacts.
Import React FormSpec.

Section Flight.
Context {S UIEvent : Type}.
Variable enabled : S → UIEvent → bool.
Variable handler : S → UIEvent → Prog S unit.
Variable isLoading : S → bool.

(** What the invariant needs of the handlers: a handler that the page
    allows either ends at once and leaves the flag as it was, or it
    starts from a lowered flag, raises it and waits on a request
    whose continuation lowers it again. *)
Hypothesis handler_ok : ∀ s ev,
  enabled s ev = true →
  (∃ s' t, run (handler s ev) s = (s', t, Finished tt)
           ∧ isLoading s' = isLoading s)
  ∨ (isLoading s = false
     ∧ ∃ s' t k, run (handler s ev) s = (s', t, Awaiting k)
                 ∧ isLoading s' = true ∧ settles isLoading k).

Lemma flight_inv_step c l c' :
  flight_inv isLoading c → step enabled handler c l c' →
  flight_inv isLoading c'.
Proof.
  intros Hinv Hstep. destruct Hstep as [c ev s' t r Hen Hrun
                                       |c o k before after s' t r Hin Hrun].
  - destruct (handler_ok _ _ Hen) as [(s1 & t1 & Hr & Hl)
                                     |(Hl & s1 & t1 & k & Hr & Hl' & Hk)];
      rewrite Hr in Hrun; injection Hrun as <- <- <-.
    + unfold flight_inv in *. cbn [inflight state pending].
      rewrite app_nil_r, Hl. exact Hinv.
    + unfold flight_inv in *. cbn [inflight state pending].
      destruct (inflight c) as [|k0 [|k1 rest]].
      * cbn. auto.
      * destruct Hinv as [Hup _]. congruence.
      * contradiction.
  - unfold flight_inv in Hinv. rewrite Hin in Hinv.
    destruct before as [|b before]; cbn in Hinv.
    + destruct after as [|a after]; [|contradiction].
      destruct Hinv as [_ Hk].
      destruct (Hk o (state c)) as (s1 & t1 & Hr & Hl & _).
      rewrite Hr in Hrun. injection Hrun as <- <- <-.
      unfold flight_inv. cbn. exact Hl.
    + destruct before; cbn in Hinv; contradiction.
Qed.

Lemma flight_inv_reachable s0 c :
  isLoading s0 = false → reachable enabled handler s0 c →
  flight_inv isLoading c.
Proof.
  intros H0 Hreach. induction Hreach as [|c l c' _ IH Hstep].
  - exact H0.
  - eapply flight_inv_step; eassumption.
Qed.

Lemma settled_step c o c' :
  flight_inv isLoading c → step enabled handler c (Settled o) c' →
  isLoading (state c') = false ∧ inflight c' = [].
Proof.
  intros Hinv Hstep. remember (Settled o) as l eqn:El.
  destruct Hstep as [c ev s' t r Hen Hrun
                    |c o' k before after s' t r Hin Hrun];
    [discriminate El|].
  unfold flight_inv in Hinv. rewrite Hin in Hinv.
  destruct before as [|b before]; cbn in Hinv;
    [|destruct before; cbn in Hinv; contradiction].
  destruct after as [|a after]; [|contradiction].
  destruct Hinv as [_ Hk].
  destruct (Hk o' (state c)) as (s1 & t1 & Hr & Hl & _).
  rewrite Hr in Hrun. injection Hrun as <- <- <-.
  split; [exact Hl | reflexivity].
Qed.

Lemma single_flight_of_inv s0 (submit_disabled : S → bool) :
  isLoading s0 = false →
  (∀ s, submit_disabled s = isLoading s) →
  single_flight enabled handler s0 isLoading submit_disabled.
Proof.
  intros H0 Hdis c Hreach.
  pose proof (flight_inv_reachable s0 c H0 Hreach) as Hinv.
  split; [|split; [|split]].
  - unfold flight_inv in Hinv.
    destruct (inflight c) as [|k0 [|k1 rest]]; cbn; (lia || contradiction).
  - unfold flight_inv in Hinv.
    destruct (inflight c) as [|k0 [|k1 rest]]; split; intros Hx;
      try congruence; try contradiction; try discriminate.
    apply Hinv.
  - intros Hup. rewrite Hdis. exact Hup.
  - intros o c' Hstep. eapply settled_step; eassumption.
Qed.
End Flight.

Lemma login_handler_ok s ev :
  LoginForm.enabled s ev = true →
  (∃ s' t, run (LoginForm.handler s ev) s = (s', t, Finished tt)
           ∧ LoginForm.isLoading s' = LoginForm.isLoading s)
  ∨ (LoginForm.isLoading s = false
     ∧ ∃ s' t k, run (LoginForm.handler s ev) s = (s', t, Awaiting k)
                 ∧ LoginForm.isLoading s' = true
                 ∧ settles LoginForm.isLoading k).
Proof.
  intros Hen. destruct ev as [target value| |]; cbn [LoginForm.handler].
  - left. unfold LoginForm.handleChange.
    destruct (truthy _); eexists _, _; split; reflexivity.
  - left. eexists _, _; split; reflexivity.
  - cbn in Hen. apply negb_true_iff in Hen.
    destruct (Zod.parse (LoginForm.loginSchema (LoginForm.formData s)))
      as [errs|] eqn:Hparse.
    + left. rewrite (LoginFacts.login_handleSubmit_invalid s s errs Hparse).
      eexists _, _; split; reflexivity.
    + right. split; [exact Hen|].
      destruct (LoginFacts.login_handleSubmit_valid s s Hparse) as (k & Hr & Hf & Hj).
      eexists _, _, k. split; [exact Hr|]. split; [reflexivity|].
      intros [|] s1; eexists _, _;
        (split; [first [apply Hf | apply Hj]|]); split; reflexivity.
Qed.

Lemma signup_handler_ok s ev :
  SignupForm.enabled s ev = true →
  (∃ s' t, run (SignupForm.handler s ev) s = (s', t, Finished tt)
           ∧ SignupForm.isLoading s' = SignupForm.isLoading s)
  ∨ (SignupForm.isLoading s = false
     ∧ ∃ s' t k, run (SignupForm.handler s ev) s = (s', t, Awaiting k)
                 ∧ SignupForm.isLoading s' = true
                 ∧ settles SignupForm.isLoading k).
Proof.
  intros Hen. destruct ev as [target value|r| | |]; cbn [SignupForm.handler].
  - left. unfold SignupForm.handleChange.
    destruct (truthy _); eexists _, _; split; reflexivity.
  - left. unfold SignupForm.handleRoleChange.
    rewrite SignupFacts.as_role_value.
    destruct (truthy _); eexists _, _; split; reflexivity.
  - left. eexists _, _; split; reflexivity.
  - left. eexists _, _; split; reflexivity.
  - cbn in Hen. apply negb_true_iff in Hen.
    destruct (Zod.parse (SignupForm.signupSchema (SignupForm.formData s)))
      as [errs|] eqn:Hparse.
    + left. rewrite (SignupFacts.signup_handleSubmit_invalid s s errs Hparse).
      eexists _, _; split; reflexivity.
    + right. split; [exact Hen|].
      destruct (SignupFacts.signup_handleSubmit_valid s s Hparse) as (k & Hr & Hf & Hj).
      eexists _, _, k. split; [exact Hr|]. split; [reflexivity|].
      intros [|] s1; eexists _, _;
        (split; [first [apply Hf | apply Hj]|]); split; reflexivity.
Qed.

Section Submit.
Context {S UIEvent : Type}.
Variable enabled : S → UIEvent → bool.
Variable handler : S → UIEvent → Prog S unit.
Variable isLoading submit_disabled : S → bool.
Variable submit : UIEvent.
Variable validates : S → Prop.

Hypothesis handler_ok : ∀ s ev,
  enabled s ev = true →
  (∃ s' t, run (handler s ev) s = (s', t, Finished tt)
           ∧ isLoading s' = isLoading s)
  ∨ (isLoading s = false
     ∧ ∃ s' t k, run (handler s ev) s = (s', t, Awaiting k)
                 ∧ isLoading s' = true ∧ settles isLoading k).
Hypothesis disabled_is_loading : ∀ s, submit_disabled s = isLoading s.
Hypothesis enabled_submit : ∀ s,
  enabled s submit = negb (submit_disabled s).

(** What the invariant needs of the submit handler: on a form that
    validates it posts one request and waits, with the flag up and a
    continuation that lowers it. *)
Hypothesis submit_ok : ∀ s,
  validates s →
  ∃ s' url body k,
    run (handler s submit) s
    = (s', [PreventedDefault; Posted url body], Awaiting k)
    ∧ isLoading s' = true ∧ settles isLoading k.

Lemma submit_starts_of_inv s0 :
  isLoading s0 = false →
  submit_starts enabled handler s0 isLoading submit_disabled
    submit validates.
Proof.
  intros H0 c Hreach Hen Hvalid.
  pose proof (flight_inv_reachable enabled handler isLoading handler_ok
                s0 c H0 Hreach) as Hinv.
  assert (Hdown : isLoading (state c) = false).
  { rewrite enabled_submit, disabled_is_loading in Hen.
    apply negb_true_iff, Hen. }
  assert (Hin : inflight c = []).
  { unfold flight_inv in Hinv.
    destruct (inflight c) as [|k0 [|k1 rest]];
      [reflexivity | destruct Hinv; congruence | contradiction]. }
  destruct (submit_ok _ Hvalid) as (s1 & url & body & k & Hrun & Hup & Hk).
  split.
  - eexists. eapply step_user; eassumption.
  - intros c' Hstep. remember (User submit) as l eqn:El.
    destruct Hstep as [c ev s' t r _ Hrun'
                      |c o k' before after s' t r Hin' Hrun'];
      [|discriminate El].
    injection El as ->. rewrite Hrun in Hrun'.
    injection Hrun' as <- <- <-.
    set (c1 := {| state := _; inflight := _; trace := _ |}).
    assert (Hs1 : state c1 = s1) by reflexivity.
    assert (Hin1 : inflight c1 = [k])
      by (unfold c1; cbn [inflight pending]; rewrite Hin; reflexivity).
    assert (Htr1 : trace c1 = trace c ++ [PreventedDefault; Posted url body])
      by reflexivity.
    clearbody c1. rewrite Hs1, Hin1, Htr1.
    split; [exact Hup|].
    split; [rewrite disabled_is_loading; exact Hup|].
    split; [rewrite enabled_submit, disabled_is_loading, Hup; reflexivity|].
    split; [reflexivity|].
    split; [exists url, body; reflexivity|].
    intros o. destruct (Hk o s1) as (s2 & t2 & Hrun2 & Hdown2 & _).
    split.
    + eexists.
      apply (step_settled enabled handler c1 o k [] [] s2 t2 (Finished tt));
        [exact Hin1 | rewrite Hs1; exact Hrun2].
    + intros c'' Hstep. remember (Settled o) as l eqn:El.
      destruct Hstep as [c1 ev s' t r _ Hrun'
                        |c1 o' k' before after s' t r Hin' Hrun'];
        [discriminate El|].
      injection El as ->. rewrite Hin1 in Hin'. rewrite Hs1 in Hrun'.
      destruct before as [|b before];
        [|destruct before; cbn in Hin'; discriminate Hin'].
      cbn in Hin'. injection Hin' as <- <-.
      rewrite Hrun2 in Hrun'. injection Hrun' as <- <- <-.
      split; [exact Hdown2 | reflexivity].
Qed.
End Submit.

Lemma login_submit_ok s :
  FormSpec.result (LoginForm.validateForm s) s = Some true →
  ∃ s' url body k,
    run (LoginForm.handler s LoginForm.Submit) s
    = (s', [PreventedDefault; Posted url body], Awaiting k)
    ∧ LoginForm.isLoading s' = true ∧ settles LoginForm.isLoading k.
Proof.
  rewrite LoginFacts.login_validateForm_result. intros Hok.
  destruct (Zod.parse _) as [errs|] eqn:Hparse; [discriminate|].
  destruct (LoginFacts.login_handleSubmit_valid s s Hparse) as (k & Hr & Hf & Hj).
  eexists _, _, _, k. split; [exact Hr|]. split; [reflexivity|].
  intros [|] s1; eexists _, _;
    (split; [first [apply Hf | apply Hj]|]); split; reflexivity.
Qed.

Lemma signup_submit_ok s :
  FormSpec.result (SignupForm.validateForm s) s = Some true →
  ∃ s' url body k,
    run (SignupForm.handler s SignupForm.Submit) s
    = (s', [PreventedDefault; Posted url body], Awaiting k)
    ∧ SignupForm.isLoading s' = true ∧ settles SignupForm.isLoading k.
Proof.
  rewrite SignupFacts.signup_validateForm_result. intros Hok.
  destruct (Zod.parse _) as [errs|] eqn:Hparse; [discriminate|].
  destruct (SignupFacts.signup_handleSubmit_valid s s Hparse)
    as (k & Hr & Hf & Hj).
  eexists _, _, _, k. split; [exact Hr|]. split; [reflexivity|].
  intros [|] s1; eexists _, _;
    (split; [first [apply Hf | apply Hj]|]); split; reflexivity.
Qed.

End FlightFacts.

(** C4.  A submission, of either form, that fails the schema check: the
    handler only prevents the default action of the event and ends; it
    posts nothing, and the loading flag and the error of the banner are
    what they were. *)
Theorem failed_check_no_request :
  (∀ this s : LoginForm.State,
      Zod.parse (LoginForm.loginSchema (LoginForm.formData this)) ≠ Zod.Ok →
      ∃ s', React.run (LoginForm.handleSubmit this) s
            = (s', [React.PreventedDefault], React.Finished tt)
            ∧ LoginForm.isLoading s' = LoginForm.isLoading s
            ∧ LoginForm.error s' = LoginForm.error s)
  ∧ (∀ this s : SignupForm.State,
      Zod.parse (SignupForm.signupSchema (SignupForm.formData this)) ≠ Zod.Ok →
      ∃ s', React.run (SignupForm.handleSubmit this) s
            = (s', [React.PreventedDefault], React.Finished tt)
            ∧ SignupForm.isLoading s' = SignupForm.isLoading s
            ∧ SignupForm.error s' = SignupForm.error s).
Proof.
  split; intros this s Hfail.
  - destruct (Zod.parse _) as [errs|] eqn:Hparse; [|congruence].
    eexists. split; [apply LoginFacts.login_handleSubmit_invalid, Hparse|].
    split; reflexivity.
  - destruct (Zod.parse _) as [errs|] eqn:Hparse; [|congruence].
    eexists. split; [apply SignupFacts.signup_handleSubmit_invalid, Hparse|].
    split; reflexivity.
Qed.

Lemma failed_check_no_request_witness :
  (∃ s', React.run (LoginForm.handleSubmit
                      (Examples.login "you@example.com" "short"))
           (Examples.login "you@example.com" "short")
         = (s', [React.PreventedDefault], React.Finished tt)
         ∧ LoginForm.isLoading s' = false ∧ LoginForm.error s' = None)
  ∧ (∃ s', React.run (SignupForm.handleSubmit
                        (Examples.signup "Amina" "amina@example.com"
                           "s3cretpass" "s3cretpast" SignupForm.client))
             (Examples.signup "Amina" "amina@example.com"
                "s3cretpass" "s3cretpast" SignupForm.client)
           = (s', [React.PreventedDefault], React.Finished tt)
           ∧ SignupForm.isLoading s' = false ∧ SignupForm.error s' = None).
Proof.
  split.
  - apply (proj1 failed_check_no_request
             (Examples.login "you@example.com" "short")
             (Examples.login "you@example.com" "short")).
    vm_compute. discriminate.
  - apply (proj2 failed_check_no_request
             (Examples.signup "Amina" "amina@example.com"
                "s3cretpass" "s3cretpast" SignupForm.client)
             (Examples.signup "Amina" "amina@example.com"
                "s3cretpass" "s3cretpast" SignupForm.client)).
    vm_compute. discriminate.
Defined.

(** C5.  A validated submission, of either form, posts to its endpoint
    and waits.  When the request succeeds the handler pushes the route
    ["/"] and leaves the error of the banner as it is; when it fails the
    handler pushes nothing and sets the error of the banner to the one
    message of the form. *)
Theorem submit_outcome :
  (∀ this s : LoginForm.State,
      FormSpec.result (LoginForm.validateForm this) s = Some true →
      ∃ s1 body k,
        React.run (LoginForm.handleSubmit this) s
        = (s1, [React.PreventedDefault; React.Posted (js "/auth/login") body],
           React.Awaiting k)
        ∧ (∀ s2, ∃ s3 t,
              React.run (k React.fulfilled) s2 = (s3, t, React.Finished tt)
              ∧ filter React.is_push t = [React.Pushed (js "/")]
              ∧ LoginForm.error s3 = LoginForm.error s2)
        ∧ (∀ s2, ∃ s3 t,
              React.run (k React.rejected) s2 = (s3, t, React.Finished tt)
              ∧ filter React.is_push t = []
              ∧ LoginForm.error s3
                = Some (js "Invalid email or password. Please try again.")))
  ∧ (∀ this s : SignupForm.State,
      FormSpec.result (SignupForm.validateForm this) s = Some true →
      ∃ s1 body k,
        React.run (SignupForm.handleSubmit this) s
        = (s1, [React.PreventedDefault; React.Posted (js "/auth/signup") body],
           React.Awaiting k)
        ∧ (∀ s2, ∃ s3 t,
              React.run (k React.fulfilled) s2 = (s3, t, React.Finished tt)
              ∧ filter React.is_push t = [React.Pushed (js "/")]
              ∧ SignupForm.error s3 = SignupForm.error s2)
        ∧ (∀ s2, ∃ s3 t,
              React.run (k React.rejected) s2 = (s3, t, React.Finished tt)
              ∧ filter React.is_push t = []
              ∧ SignupForm.error s3
                = Some (js "Registration failed. Please try again."))).
Proof.
  split; intros this s.
  - rewrite LoginFacts.login_validateForm_result. intros Hok.
    destruct (Zod.parse _) as [errs|] eqn:Hparse; [discriminate|].
    destruct (LoginFacts.login_handleSubmit_valid this s Hparse) as (k & Hr & Hf & Hj).
    eexists _, _, k. split; [exact Hr|].
    split; intros s2; eexists _, _;
      (split; [first [apply Hf | apply Hj]|]); split; reflexivity.
  - rewrite SignupFacts.signup_validateForm_result. intros Hok.
    destruct (Zod.parse _) as [errs|] eqn:Hparse; [discriminate|].
    destruct (SignupFacts.signup_handleSubmit_valid this s Hparse) as (k & Hr & Hf & Hj).
    eexists _, _, k. split; [exact Hr|].
    split; intros s2; eexists _, _;
      (split; [first [apply Hf | apply Hj]|]); split; reflexivity.
Qed.

Lemma submit_outcome_witness :
  (∃ s1 body k,
      React.run (LoginForm.handleSubmit
                   (Examples.login "you@example.com" "12345678"))
        (Examples.login "you@example.com" "12345678")
      = (s1, [React.PreventedDefault; React.Posted (js "/auth/login") body],
         React.Awaiting k)
      ∧ (∀ s2, ∃ s3 t,
            React.run (k React.fulfilled) s2 = (s3, t, React.Finished tt)
            ∧ filter React.is_push t = [React.Pushed (js "/")]
            ∧ LoginForm.error s3 = LoginForm.error s2)
      ∧ (∀ s2, ∃ s3 t,
            React.run (k React.rejected) s2 = (s3, t, React.Finished tt)
            ∧ filter React.is_push t = []
            ∧ LoginForm.error s3
              = Some (js "Invalid email or password. Please try again.")))
  ∧ (∃ s1 body k,
      React.run (SignupForm.handleSubmit
                   (Examples.signup "Amina" "amina@example.com" "s3cretpass"
                      "s3cretpass" SignupForm.employee))
        (Examples.signup "Amina" "amina@example.com" "s3cretpass"
           "s3cretpass" SignupForm.employee)
      = (s1, [React.PreventedDefault; React.Posted (js "/auth/signup") body],
         React.Awaiting k)
      ∧ (∀ s2, ∃ s3 t,
            React.run (k React.fulfilled) s2 = (s3, t, React.Finished tt)
            ∧ filter React.is_push t = [React.Pushed (js "/")]
            ∧ SignupForm.error s3 = SignupForm.error s2)
      ∧ (∀ s2, ∃ s3 t,
            React.run (k React.rejected) s2 = (s3, t, React.Finished tt)
            ∧ filter React.is_push t = []
            ∧ SignupForm.error s3
              = Some (js "Registration failed. Please try again."))).
Proof.
  split.
  - apply (proj1 submit_outcome
             (Examples.login "you@example.com" "12345678")
             (Examples.login "you@example.com" "12345678")).
    vm_compute. reflexivity.
  - apply (proj2 submit_outcome
             (Examples.signup "Amina" "amina@example.com" "s3cretpass"
                "s3cretpass" SignupForm.employee)
             (Examples.signup "Amina" "amina@example.com" "s3cretpass"
                "s3cretpass" SignupForm.employee)).
    vm_compute. reflexivity.
Defined.

(** C6.  Each form has at most one request in flight.  On every page
    reachable from the first render at most one handler waits on a
    request; one waits exactly when [isLoading] is [true], and then the
    submit button is disabled; and when the request settles, fulfilled or
    rejected, [isLoading] is [false] again and nothing is in flight.
    And the flag is raised by the submission itself: on a reachable page
    with the button enabled and a form that validates, the submit posts
    one request, leaves one handler waiting, sets [isLoading] to [true]
    and disables the button, so that no second submit can be taken until
    that request has settled, which sets [isLoading] back to [false]. *)
Theorem one_request_in_flight :
  (FormSpec.single_flight LoginForm.enabled LoginForm.handler
     LoginForm.initial LoginForm.isLoading LoginForm.submit_disabled
   ∧ FormSpec.submit_starts LoginForm.enabled LoginForm.handler
       LoginForm.initial LoginForm.isLoading LoginForm.submit_disabled
       LoginForm.Submit
       (fun s => FormSpec.result (LoginForm.validateForm s) s = Some true))
  ∧ (FormSpec.single_flight SignupForm.enabled SignupForm.handler
       SignupForm.initial SignupForm.isLoading SignupForm.submit_disabled
     ∧ FormSpec.submit_starts SignupForm.enabled SignupForm.handler
         SignupForm.initial SignupForm.isLoading SignupForm.submit_disabled
         SignupForm.Submit
         (fun s => FormSpec.result (SignupForm.validateForm s) s = Some true)).
Proof.
  split; split.
  - apply FlightFacts.single_flight_of_inv;
      [apply FlightFacts.login_handler_ok | reflexivity | reflexivity].
  - apply FlightFacts.submit_starts_of_inv;
      [apply FlightFacts.login_handler_ok | reflexivity | reflexivity
      | apply FlightFacts.login_submit_ok | reflexivity].
  - apply FlightFacts.single_flight_of_inv;
      [apply FlightFacts.signup_handler_ok | reflexivity | reflexivity].
  - apply FlightFacts.submit_starts_of_inv;
      [apply FlightFacts.signup_handler_ok | reflexivity | reflexivity
      | apply FlightFacts.signup_submit_ok | reflexivity].
Qed.

(** A login page and a signup page, filled in by the user, and the
    button pressed: the submit is taken, one request is in flight, the
    flag is up, the button is disabled and a second submit is refused;
    whichever way the request settles, the flag is down again. *)
Lemma one_request_in_flight_witness :
  (∃ c c',
      React.reachable LoginForm.enabled LoginForm.handler LoginForm.initial c
      ∧ React.step LoginForm.enabled LoginForm.handler c
          (React.User LoginForm.Submit) c'
      ∧ LoginForm.isLoading (React.state c') = true
      ∧ LoginForm.submit_disabled (React.state c') = true
      ∧ LoginForm.enabled (React.state c') LoginForm.Submit = false
      ∧ List.length (React.inflight c') = 1%nat
      ∧ ∀ o c'',
          React.step LoginForm.enabled LoginForm.handler c' (React.Settled o) c'' →
          LoginForm.isLoading (React.state c'') = false
          ∧ React.inflight c'' = [])
  ∧ (∃ c c',
        React.reachable SignupForm.enabled SignupForm.handler
          SignupForm.initial c
        ∧ React.step SignupForm.enabled SignupForm.handler c
            (React.User SignupForm.Submit) c'
        ∧ SignupForm.isLoading (React.state c') = true
        ∧ SignupForm.submit_disabled (React.state c') = true
        ∧ SignupForm.enabled (React.state c') SignupForm.Submit = false
        ∧ List.length (React.inflight c') = 1%nat
        ∧ ∀ o c'',
            React.step SignupForm.enabled SignupForm.handler c'
              (React.Settled o) c'' →
            SignupForm.isLoading (React.state c'') = false
            ∧ React.inflight c'' = []).
Proof.
  split.
  - assert (Hpage : ∃ c,
               React.reachable LoginForm.enabled LoginForm.handler
                 LoginForm.initial c
               ∧ LoginForm.enabled (React.state c) LoginForm.Submit = true
               ∧ FormSpec.result (LoginForm.validateForm (React.state c))
                   (React.state c) = Some true).
    { eexists. split.
      - eapply React.reach_step; [eapply React.reach_step;
          [apply React.reach_mount|] |].
        + apply (React.step_user _ _ _
                   (LoginForm.Change LoginForm.email_input
                      (js "you@example.com")));
            [reflexivity | reflexivity].
        + apply (React.step_user _ _ _
                   (LoginForm.Change LoginForm.password_input (js "12345678")));
            [reflexivity | reflexivity].
      - split; reflexivity. }
    destruct Hpage as (c & Hreach & Hen & Hv).
    destruct (proj2 (proj1 one_request_in_flight) c Hreach Hen Hv)
      as [[c' Hstep] Hall].
    destruct (Hall c' Hstep) as (Hup & Hdis & Hno & Hlen & _ & Hsettle).
    exists c, c'.
    split; [exact Hreach|]. split; [exact Hstep|]. split; [exact Hup|].
    split; [exact Hdis|]. split; [exact Hno|]. split; [exact Hlen|].
    intros o c'' Hs. exact (proj2 (Hsettle o) c'' Hs).
  - assert (Hpage : ∃ c,
               React.reachable SignupForm.enabled SignupForm.handler
                 SignupForm.initial c
               ∧ SignupForm.enabled (React.state c) SignupForm.Submit = true
               ∧ FormSpec.result (SignupForm.validateForm (React.state c))
                   (React.state c) = Some true).
    { eexists. split.
      - eapply React.reach_step; [eapply React.reach_step;
          [eapply React.reach_step; [eapply React.reach_step;
            [eapply React.reach_step; [apply React.reach_mount|] |] |] |] |].
        + apply (React.step_user _ _ _ (SignupForm.ClickRole SignupForm.employee));
            [reflexivity | reflexivity].
        + apply (React.step_user _ _ _
                   (SignupForm.Change SignupForm.name_input (js "Amina")));
            [reflexivity | reflexivity].
        + apply (React.step_user _ _ _
                   (SignupForm.Change SignupForm.email_input
                      (js "amina@example.com")));
            [reflexivity | reflexivity].
        + apply (React.step_user _ _ _
                   (SignupForm.Change SignupForm.password_input
                      (js "s3cretpass")));
            [reflexivity | reflexivity].
        + apply (React.step_user _ _ _
                   (SignupForm.Change SignupForm.confirmPassword_input
                      (js "s3cretpass")));
            [reflexivity | reflexivity].
      - split; reflexivity. }
    destruct Hpage as (c & Hreach & Hen & Hv).
    destruct (proj2 (proj2 one_request_in_flight) c Hreach Hen Hv)
      as [[c' Hstep] Hall].
    destruct (Hall c' Hstep) as (Hup & Hdis & Hno & Hlen & _ & Hsettle).
    exists c, c'.
    split; [exact Hreach|]. split; [exact Hstep|]. split; [exact Hup|].
    split; [exact Hdis|]. split; [exact Hno|]. split; [exact Hlen|].
    intros o c'' Hs. exact (proj2 (Hsettle o) c'' Hs).
Defined.

(* ===================================================================== *)
(** ** Properties: the middleware bootstrap *)
(* ===================================================================== *)

Module BootstrapFacts.
Import Bootstrap.

Lemma app_priorityList :
  priorityList app = [JwtAuth; JwtGuest; isAdmin; isEmployee; isClient].
Proof. reflexivity. Qed.

Lemma app_customAliases :
  customAliases app =
    <["client" := isClient]>
      (<["employee" := isEmployee]>
         (<["admin" := isAdmin]>
            (<["jwt.guest" := JwtGuest]>
               (<["jwt.auth" := JwtAuth]> ∅)))).
Proof. reflexivity. Qed.

Lemma lookup_jwt_auth : customAliases app !! "jwt.auth" = Some JwtAuth.
Proof. rewrite app_customAliases. by simplify_map_eq. Qed.

Lemma lookup_jwt_guest : customAliases app !! "jwt.guest" = Some JwtGuest.
Proof. rewrite app_customAliases. by simplify_map_eq. Qed.

(** Filtering keeps the order of what it keeps. *)
Lemma before_filter (P : string → Prop) `{!∀ x, Decision (P x)} l a b :
  before l a b → P a → P b → before (filter P l) a b.
Proof.
  intros (l1 & l2 & l3 & ->) Ha Hb.
  exists (filter P l1), (filter P l2), (filter P l3).
  rewrite filter_app, filter_cons_True by exact Ha.
  rewrite filter_app, filter_cons_True by exact Hb.
  reflexivity.
Qed.

End BootstrapFacts.

(** C7.  The priority list that the bootstrap registers is JwtAuth,
    JwtGuest, isAdmin, isEmployee, isClient, each once and in this order;
    and two of these that apply to one route are evaluated in the order
    of the list. *)
Theorem middleware_priority :
  Bootstrap.priorityList Bootstrap.app
  = [Bootstrap.JwtAuth; Bootstrap.JwtGuest; Bootstrap.isAdmin;
     Bootstrap.isEmployee; Bootstrap.isClient]
  ∧ NoDup (Bootstrap.priorityList Bootstrap.app)
  ∧ ∀ (route : list string) (a b : string),
      a ∈ route → b ∈ route →
      Bootstrap.before
        [Bootstrap.JwtAuth; Bootstrap.JwtGuest; Bootstrap.isAdmin;
         Bootstrap.isEmployee; Bootstrap.isClient] a b →
      Bootstrap.before
        (Bootstrap.evaluationOrder
           (Bootstrap.priorityList Bootstrap.app) route) a b.
Proof.
  split; [reflexivity|]. split.
  - rewrite BootstrapFacts.app_priorityList.
    repeat (apply NoDup_cons; split;
            [rewrite ?elem_of_cons, elem_of_nil; intros H;
             repeat (destruct H as [H|H]; [discriminate H|]); exact H|]).
    apply NoDup_nil_2.
  - intros route a b Ha Hb Hab. unfold Bootstrap.evaluationOrder.
    rewrite BootstrapFacts.app_priorityList.
    apply BootstrapFacts.before_filter; assumption.
Qed.

Lemma middleware_priority_witness :
  Bootstrap.before
    (Bootstrap.evaluationOrder (Bootstrap.priorityList Bootstrap.app)
       [Bootstrap.isClient; Bootstrap.JwtAuth])
    Bootstrap.JwtAuth Bootstrap.isClient.
Proof.
  apply (proj2 (proj2 middleware_priority)
           [Bootstrap.isClient; Bootstrap.JwtAuth]).
  - apply list_elem_of_further, list_elem_of_here.
  - apply list_elem_of_here.
  - exists [], [Bootstrap.JwtGuest; Bootstrap.isAdmin; Bootstrap.isEmployee], [].
    reflexivity.
Defined.

(** C8.  The alias map that the bootstrap registers binds jwt.auth,
    jwt.guest, admin, employee and client to the classes JwtAuth,
    JwtGuest, isAdmin, isEmployee and isClient, and binds nothing else. *)
Theorem middleware_aliases (name class : string) :
  Bootstrap.customAliases Bootstrap.app !! name = Some class ↔
    (name, class) ∈ [ ("jwt.auth", Bootstrap.JwtAuth);
                      ("jwt.guest", Bootstrap.JwtGuest);
                      ("admin", Bootstrap.isAdmin);
                      ("employee", Bootstrap.isEmployee);
                      ("client", Bootstrap.isClient) ].
Proof.
  rewrite BootstrapFacts.app_customAliases.
  rewrite !elem_of_cons, elem_of_nil.
  rewrite !lookup_insert_Some, lookup_empty.
  split.
  - intros H.
    repeat (destruct H as [[<- <-]|[_ H]]; [tauto|]).
    discriminate H.
  - intros H.
    repeat (destruct H as [H|H];
            [injection H as -> ->;
             repeat (first [left; split; reflexivity
                           | right; split; [discriminate|]])|]).
    contradiction.
Qed.

(* ===================================================================== *)
(** ** Properties: the guards *)
(* ===================================================================== *)

Module GuardFacts.
Import Bootstrap Guards.

Lemma resolve_jwt_auth names : "jwt.auth" ∈ names → JwtAuth ∈ resolve names.
Proof.
  intros H. apply list_elem_of_omap. exists "jwt.auth".
  split; [exact H | apply BootstrapFacts.lookup_jwt_auth].
Qed.

Lemma resolve_jwt_guest names :
  "jwt.guest" ∈ names → JwtGuest ∈ resolve names.
Proof.
  intros H. apply list_elem_of_omap. exists "jwt.guest".
  split; [exact H | apply BootstrapFacts.lookup_jwt_guest].
Qed.

Lemma handle_JwtAuth verify req next :
  handle verify JwtAuth req next
  = if user verify req is Some _ then next req else Rejected JwtAuth.
Proof. reflexivity. Qed.

Lemma handle_JwtGuest verify req next :
  handle verify JwtGuest req next
  = if user verify req is Some _ then Rejected JwtGuest else next req.
Proof. reflexivity. Qed.

End GuardFacts.

(** C9.  A request without a valid token to a route that carries
    [jwt.auth] is rejected by [JwtAuth] and the route handler gives no
    answer; a request with a valid token to a route that carries
    [jwt.guest] is rejected by [JwtGuest]. *)
Theorem jwt_guards (verify : jsstring → option Guards.Role)
        (route : Guards.Route) (req : Guards.Request) :
  ("jwt.auth" ∈ Guards.middleware route →
   Guards.user verify req = None →
   Guards.dispatch verify route req = Guards.Rejected Bootstrap.JwtAuth)
  ∧ ("jwt.guest" ∈ Guards.middleware route →
     is_Some (Guards.user verify req) →
     Guards.dispatch verify route req = Guards.Rejected Bootstrap.JwtGuest).
Proof.
  split.
  - intros Hin Hnone. unfold Guards.dispatch, Bootstrap.evaluationOrder.
    rewrite BootstrapFacts.app_priorityList.
    rewrite filter_cons_True by (apply GuardFacts.resolve_jwt_auth, Hin).
    cbn [Guards.pipeline fold_right].
    rewrite GuardFacts.handle_JwtAuth, Hnone. reflexivity.
  - intros Hin [r Hsome]. unfold Guards.dispatch, Bootstrap.evaluationOrder.
    rewrite BootstrapFacts.app_priorityList.
    assert (Hguest : ∀ l dest,
               Guards.pipeline verify
                 (filter (fun c => c ∈ Guards.resolve (Guards.middleware route))
                    (Bootstrap.JwtGuest :: l)) dest req
               = Guards.Rejected Bootstrap.JwtGuest).
    { intros l dest.
      rewrite filter_cons_True by (apply GuardFacts.resolve_jwt_guest, Hin).
      cbn [Guards.pipeline fold_right].
      rewrite GuardFacts.handle_JwtGuest, Hsome. reflexivity. }
    destruct (decide (Bootstrap.JwtAuth
                        ∈ Guards.resolve (Guards.middleware route))) as [Ha|Ha].
    + rewrite filter_cons_True by exact Ha.
      cbn [Guards.pipeline fold_right].
      rewrite GuardFacts.handle_JwtAuth, Hsome. apply Hguest.
    + rewrite filter_cons_False by exact Ha. apply Hguest.
Qed.

Lemma jwt_guards_witness :
  Guards.dispatch Examples.verify Examples.profile Examples.guest_request
  = Guards.Rejected Bootstrap.JwtAuth
  ∧ Guards.dispatch Examples.verify Examples.login_route Examples.user_request
    = Guards.Rejected Bootstrap.JwtGuest.
Proof.
  split.
  - apply (proj1 (jwt_guards Examples.verify Examples.profile
                    Examples.guest_request)).
    + apply list_elem_of_here.
    + reflexivity.
  - apply (proj2 (jwt_guards Examples.verify Examples.login_route
                    Examples.user_request)).
    + apply list_elem_of_here.
    + exists Guards.client. vm_compute. reflexivity.
Defined.

(* ===================================================================== *)
(** ** Further properties: validation *)
(* ===================================================================== *)

Module ValidationFacts.
Import React.

Lemma read_empty key : read ∅ key = None.
Proof. unfold read. rewrite lookup_empty. reflexivity. Qed.

Lemma truthy_js_nonempty (a : ascii) (s : string) :
  truthy (Some (js (String a s))) = true.
Proof. reflexivity. Qed.

(** The errors recorded for a list of issues whose keys are pairwise
    different, read at the key of one of them and at another key. *)
Lemma read_issues_cons_eq i errs key m :
  first_key (Zod.path i) = key →
  Forall (fun j => first_key (Zod.path j) ≠ key) errs →
  read (fold_left record_issue (i :: errs) m) key = Some (Zod.message i).
Proof.
  intros Hk Hother. cbn [fold_left].
  rewrite read_record_issues_other by exact Hother.
  apply read_record_issue_eq, Hk.
Qed.

Lemma read_issues_none errs key :
  Forall (fun j => first_key (Zod.path j) ≠ key) errs →
  read (fold_left record_issue errs ∅) key = None.
Proof.
  intros H. rewrite read_record_issues_other by exact H. apply read_empty.
Qed.

End ValidationFacts.

(** X1.  [validateForm] of the login form always returns, and it returns
    [true] exactly when the address matches the e-mail pattern and the
    password has eight code units or more. *)
Theorem login_validateForm_returns (this s : LoginForm.State) :
  FormSpec.result (LoginForm.validateForm this) s
  = Some (Regex.matches Zod.emailRegex
            (LoginForm.email (LoginForm.formData this))
          && (8 <=? List.length (LoginForm.password (LoginForm.formData this)))%nat).
Proof.
  rewrite LoginFacts.login_validateForm_result.
  rewrite LoginFacts.loginSchema_eq, ZodFacts.ZodString_email,
    ZodFacts.ZodString_min.
  destruct (Regex.matches _ _);
    destruct (Nat.ltb_spec (List.length (LoginForm.password (LoginForm.formData this))) 8)
      as [Hlt|Hge];
    cbn -[js Nat.leb];
    first [ apply Nat.leb_gt in Hlt; rewrite ?Hlt
          | apply Nat.leb_le in Hge; rewrite ?Hge ];
    reflexivity.
Qed.

(** X2.  After [validateForm] of the login form the recorded errors are
    those of the fields that fail, and no others: [email] carries its
    message exactly when the address does not match, [password] exactly
    when the password is too short, every other key reads [undefined];
    whatever was recorded before is gone and no other slot of the state
    is touched. *)
Theorem login_validateForm_errors (this s : LoginForm.State) :
  ∃ s' b,
    React.run (LoginForm.validateForm this) s = (s', [], React.Finished b)
    ∧ s' = LoginForm.with_formErrors (fun _ => LoginForm.formErrors s') s
    ∧ read (LoginForm.formErrors s') "email"
      = (if Regex.matches Zod.emailRegex
              (LoginForm.email (LoginForm.formData this))
         then None
         else Some (js "Please enter a valid email address"))
    ∧ read (LoginForm.formErrors s') "password"
      = (if (List.length (LoginForm.password (LoginForm.formData this)) <? 8)%nat
         then Some (js "Password must be at least 8 characters")
         else None)
    ∧ ∀ key, key ≠ "email" → key ≠ "password" →
             read (LoginForm.formErrors s') key = None.
Proof.
  unfold LoginForm.validateForm.
  rewrite LoginFacts.loginSchema_eq, ZodFacts.ZodString_email,
    ZodFacts.ZodString_min.
  destruct (Regex.matches _ _), (_ <? 8)%nat; cbn -[js];
    eexists _, _; (split; [reflexivity|]); (split; [reflexivity|]);
    cbn -[js]; unfold read, record_issue; cbn -[js];
    repeat split; intros; by simplify_map_eq.
Qed.

(** X3.  [validateForm] of the signup form always returns, and it
    returns [true] exactly when the name has two code units or more, the
    address matches the e-mail pattern, the password has eight code
    units or more and the confirmation is the password; the role plays
    no part. *)
Theorem signup_validateForm_returns (this s : SignupForm.State) :
  FormSpec.result (SignupForm.validateForm this) s
  = Some ((2 <=? List.length (SignupForm.name (SignupForm.formData this)))%nat
          && Regex.matches Zod.emailRegex
               (SignupForm.email (SignupForm.formData this))
          && (8 <=? List.length (SignupForm.password (SignupForm.formData this)))%nat
          && strict_eq (SignupForm.password (SignupForm.formData this))
               (SignupForm.confirmPassword (SignupForm.formData this))).
Proof.
  rewrite SignupFacts.signup_validateForm_result.
  rewrite SignupFacts.signupSchema_eq, ZodFacts.ZodString_email,
    !ZodFacts.ZodString_min.
  destruct (Nat.ltb_spec (List.length (SignupForm.name (SignupForm.formData this))) 2)
    as [Hn|Hn];
    [apply Nat.leb_gt in Hn | apply Nat.leb_le in Hn]; rewrite Hn;
    destruct (Regex.matches _ _);
    (destruct (Nat.ltb_spec
                 (List.length (SignupForm.password (SignupForm.formData this))) 8)
      as [Hp|Hp];
     [apply Nat.leb_gt in Hp | apply Nat.leb_le in Hp]; rewrite Hp);
    destruct (strict_eq _ _); reflexivity.
Qed.

(** X4.  After [validateForm] of the signup form the recorded errors are
    those of the checks that fail, and no others: [name], [email] and
    [password] carry their message exactly when their check fails,
    [confirmPassword] exactly when the confirmation differs from the
    password, and every other key, [role] among them, reads
    [undefined]; no other slot of the state is touched. *)
Theorem signup_validateForm_errors (this s : SignupForm.State) :
  ∃ s' b,
    React.run (SignupForm.validateForm this) s = (s', [], React.Finished b)
    ∧ s' = SignupForm.with_formErrors (fun _ => SignupForm.formErrors s') s
    ∧ read (SignupForm.formErrors s') "name"
      = (if (List.length (SignupForm.name (SignupForm.formData this)) <? 2)%nat
         then Some (js "Name must be at least 2 characters")
         else None)
    ∧ read (SignupForm.formErrors s') "email"
      = (if Regex.matches Zod.emailRegex
              (SignupForm.email (SignupForm.formData this))
         then None
         else Some (js "Please enter a valid email address"))
    ∧ read (SignupForm.formErrors s') "password"
      = (if (List.length (SignupForm.password (SignupForm.formData this)) <? 8)%nat
         then Some (js "Password must be at least 8 characters")
         else None)
    ∧ read (SignupForm.formErrors s') "confirmPassword"
      = (if strict_eq (SignupForm.password (SignupForm.formData this))
              (SignupForm.confirmPassword (SignupForm.formData this))
         then None
         else Some (js "Passwords do not match"))
    ∧ ∀ key, key ≠ "name" → key ≠ "email" → key ≠ "password" →
             key ≠ "confirmPassword" →
             read (SignupForm.formErrors s') key = None.
Proof.
  unfold SignupForm.validateForm.
  rewrite SignupFacts.signupSchema_eq, ZodFacts.ZodString_email,
    !ZodFacts.ZodString_min.
  destruct (_ <? 2)%nat, (Regex.matches _ _), (_ <? 8)%nat, (strict_eq _ _);
    cbn -[js];
    eexists _, _; (split; [reflexivity|]); (split; [reflexivity|]);
    cbn -[js]; unfold read, record_issue; cbn -[js];
    repeat split; intros; by simplify_map_eq.
Qed.

(* ===================================================================== *)
(** ** Further properties: typing and choosing a role *)
(* ===================================================================== *)

Module ChangeFacts.
Import React.

Lemma truthy_read_insert_None (m : gmap string (option jsstring)) k :
  truthy (read (<[k := None]> m) k) = false.
Proof. unfold read. rewrite lookup_insert_eq. reflexivity. Qed.

Lemma read_insert_other (m : gmap string (option jsstring)) k key v :
  key ≠ k → read (<[k := v]> m) key = read m key.
Proof. intros H. unfold read. rewrite lookup_insert_ne by congruence. reflexivity. Qed.

Lemma login_input_name_inj i j :
  LoginForm.input_name i = LoginForm.input_name j → i = j.
Proof. destruct i, j; (reflexivity || discriminate). Qed.

Lemma signup_input_name_inj i j :
  SignupForm.input_name i = SignupForm.input_name j → i = j.
Proof. destruct i, j; (reflexivity || discriminate). Qed.

(** [handleChange] as one update of the state. *)
Lemma login_handleChange_run this s i v :
  run (LoginForm.handleChange this i v) s
  = ((if truthy (read (LoginForm.formErrors this) (LoginForm.input_name i))
      then LoginForm.with_formErrors (fun prev => <[LoginForm.input_name i := None]> prev)
      else fun x => x)
       (LoginForm.with_formData (fun prev => LoginForm.assign prev i v) s),
     [], Finished tt).
Proof. unfold LoginForm.handleChange. destruct (truthy _); reflexivity. Qed.

Lemma signup_handleChange_run this s i v :
  run (SignupForm.handleChange this i v) s
  = ((if truthy (read (SignupForm.formErrors this) (SignupForm.input_name i))
      then SignupForm.with_formErrors (fun prev => <[SignupForm.input_name i := None]> prev)
      else fun x => x)
       (SignupForm.with_formData (fun prev => SignupForm.assign prev i v) s),
     [], Finished tt).
Proof. unfold SignupForm.handleChange. destruct (truthy _); reflexivity. Qed.

End ChangeFacts.

(** X5.  Typing [v] into an input of the login form: the handler ends
    at once and does nothing outside the component; afterwards the
    input shows [v], the other input shows what it showed, no text
    stands under the changed input, the errors of the other keys are
    what they were, and the flag, the banner and the visibility of the
    password are untouched. *)
Theorem login_handleChange_effect (s : LoginForm.State)
        (i : LoginForm.Input) (v : jsstring) :
  ∃ s',
    React.run (LoginForm.handleChange s i v) s = (s', [], React.Finished tt)
    ∧ LoginView.input_value s' i = v
    ∧ (∀ j, j ≠ i → LoginView.input_value s' j = LoginView.input_value s j)
    ∧ LoginView.field_error s' (LoginForm.input_name i) = None
    ∧ (∀ key, key ≠ LoginForm.input_name i →
              read (LoginForm.formErrors s') key
              = read (LoginForm.formErrors s) key)
    ∧ LoginForm.isLoading s' = LoginForm.isLoading s
    ∧ LoginForm.error s' = LoginForm.error s
    ∧ LoginForm.showPassword s' = LoginForm.showPassword s.
Proof.
  eexists. split; [apply ChangeFacts.login_handleChange_run|].
  unfold LoginView.field_error.
  destruct (truthy (read (LoginForm.formErrors s) (LoginForm.input_name i)))
    eqn:Ht; cbn [LoginForm.with_formErrors LoginForm.with_formData
                 LoginForm.formErrors LoginForm.formData LoginForm.isLoading
                 LoginForm.error LoginForm.showPassword].
  - rewrite ChangeFacts.truthy_read_insert_None.
    repeat split.
    + destruct i; reflexivity.
    + intros j Hj. destruct i, j; (reflexivity || contradiction).
    + intros key Hk. apply ChangeFacts.read_insert_other, Hk.
  - rewrite Ht. repeat split.
    + destruct i; reflexivity.
    + intros j Hj. destruct i, j; (reflexivity || contradiction).
Qed.

(** X6.  Typing [v] into an input of the signup form: the same, over
    its four inputs; the role is untouched as well. *)
Theorem signup_handleChange_effect (s : SignupForm.State)
        (i : SignupForm.Input) (v : jsstring) :
  ∃ s',
    React.run (SignupForm.handleChange s i v) s = (s', [], React.Finished tt)
    ∧ SignupView.input_value s' i = v
    ∧ (∀ j, j ≠ i → SignupView.input_value s' j = SignupView.input_value s j)
    ∧ SignupForm.role (SignupForm.formData s')
      = SignupForm.role (SignupForm.formData s)
    ∧ SignupView.field_error s' (SignupForm.input_name i) = None
    ∧ (∀ key, key ≠ SignupForm.input_name i →
              read (SignupForm.formErrors s') key
              = read (SignupForm.formErrors s) key)
    ∧ SignupForm.isLoading s' = SignupForm.isLoading s
    ∧ SignupForm.error s' = SignupForm.error s.
Proof.
  eexists. split; [apply ChangeFacts.signup_handleChange_run|].
  unfold SignupView.field_error.
  destruct (truthy (read (SignupForm.formErrors s) (SignupForm.input_name i)))
    eqn:Ht; cbn [SignupForm.with_formErrors SignupForm.with_formData
                 SignupForm.formErrors SignupForm.formData SignupForm.isLoading
                 SignupForm.error].
  - rewrite ChangeFacts.truthy_read_insert_None.
    repeat split.
    + destruct i; reflexivity.
    + intros j Hj. destruct i, j; (reflexivity || contradiction).
    + destruct i; reflexivity.
    + intros key Hk. apply ChangeFacts.read_insert_other, Hk.
  - rewrite Ht. repeat split.
    + destruct i; reflexivity.
    + intros j Hj. destruct i, j; (reflexivity || contradiction).
    + destruct i; reflexivity.
Qed.

Module OrderFacts.
Import React.

Lemma login_user_change c i v :
  Play.user LoginForm.handler c (LoginForm.Change i v)
  = {| state :=
         (if truthy (read (LoginForm.formErrors (state c))
                       (LoginForm.input_name i))
          then LoginForm.with_formErrors
                 (fun prev => <[LoginForm.input_name i := None]> prev)
          else fun x => x)
           (LoginForm.with_formData
              (fun prev => LoginForm.assign prev i v) (state c));
       inflight := inflight c; trace := trace c |}.
Proof.
  unfold Play.user. cbn [LoginForm.handler].
  rewrite ChangeFacts.login_handleChange_run, !app_nil_r. reflexivity.
Qed.

Lemma signup_user_change c i v :
  Play.user SignupForm.handler c (SignupForm.Change i v)
  = {| state :=
         (if truthy (read (SignupForm.formErrors (state c))
                       (SignupForm.input_name i))
          then SignupForm.with_formErrors
                 (fun prev => <[SignupForm.input_name i := None]> prev)
          else fun x => x)
           (SignupForm.with_formData
              (fun prev => SignupForm.assign prev i v) (state c));
       inflight := inflight c; trace := trace c |}.
Proof.
  unfold Play.user. cbn [SignupForm.handler].
  rewrite ChangeFacts.signup_handleChange_run, !app_nil_r. reflexivity.
Qed.

Lemma insert_None_commute (m : gmap string (option jsstring)) a b :
  a ≠ b → <[a := None]> (<[b := None]> m) = <[b := None]> (<[a := None]> m).
Proof. intros H. apply insert_insert_ne. congruence. Qed.

End OrderFacts.

(** X7.  On the login form the order of typing does not matter: typing
    into two different inputs in either order leaves the same page, and
    typing twice into one input leaves the page of the last value. *)
Theorem login_changes_compose (c : React.Page LoginForm.State)
        (i j : LoginForm.Input) (v w : jsstring) :
  (i ≠ j →
   Play.user LoginForm.handler
     (Play.user LoginForm.handler c (LoginForm.Change i v))
     (LoginForm.Change j w)
   = Play.user LoginForm.handler
       (Play.user LoginForm.handler c (LoginForm.Change j w))
       (LoginForm.Change i v))
  ∧ Play.user LoginForm.handler
      (Play.user LoginForm.handler c (LoginForm.Change i v))
      (LoginForm.Change i w)
    = Play.user LoginForm.handler c (LoginForm.Change i w).
Proof.
  rewrite !OrderFacts.login_user_change.
  destruct c as [[l e sp d fe] fl tr].
  cbn [React.state React.inflight React.trace LoginForm.formErrors].
  split.
  - intros Hij.
    assert (Hn : LoginForm.input_name i ≠ LoginForm.input_name j)
      by (intros H; apply Hij, ChangeFacts.login_input_name_inj, H).
    destruct (truthy (read fe (LoginForm.input_name i))) eqn:Hi,
             (truthy (read fe (LoginForm.input_name j))) eqn:Hj;
      cbn [LoginForm.with_formErrors LoginForm.with_formData LoginForm.formErrors
           LoginForm.formData LoginForm.isLoading LoginForm.error
           LoginForm.showPassword];
      rewrite ?ChangeFacts.read_insert_other by congruence;
      rewrite ?Hi, ?Hj;
      unfold LoginForm.with_formErrors, LoginForm.with_formData;
      cbn [LoginForm.formErrors LoginForm.formData LoginForm.isLoading
           LoginForm.error LoginForm.showPassword];
      rewrite ?(OrderFacts.insert_None_commute fe _ _ Hn);
      destruct i, j; try contradiction; reflexivity.
  - destruct (truthy (read fe (LoginForm.input_name i))) eqn:Hi;
      cbn [LoginForm.with_formErrors LoginForm.with_formData LoginForm.formErrors
           LoginForm.formData LoginForm.isLoading LoginForm.error
           LoginForm.showPassword];
      rewrite ?ChangeFacts.truthy_read_insert_None, ?Hi;
      unfold LoginForm.with_formErrors, LoginForm.with_formData;
      cbn [LoginForm.formErrors LoginForm.formData LoginForm.isLoading
           LoginForm.error LoginForm.showPassword];
      destruct i; reflexivity.
Qed.

(** X8.  On the signup form the order of typing does not matter either:
    typing into two different inputs in either order leaves the same
    page, and typing twice into one input leaves the page of the last
    value. *)
Theorem signup_changes_compose (c : React.Page SignupForm.State)
        (i j : SignupForm.Input) (v w : jsstring) :
  (i ≠ j →
   Play.user SignupForm.handler
     (Play.user SignupForm.handler c (SignupForm.Change i v))
     (SignupForm.Change j w)
   = Play.user SignupForm.handler
       (Play.user SignupForm.handler c (SignupForm.Change j w))
       (SignupForm.Change i v))
  ∧ Play.user SignupForm.handler
      (Play.user SignupForm.handler c (SignupForm.Change i v))
      (SignupForm.Change i w)
    = Play.user SignupForm.handler c (SignupForm.Change i w).
Proof.
  rewrite !OrderFacts.signup_user_change.
  destruct c as [[l e sp scp d fe] fl tr].
  cbn [React.state React.inflight React.trace SignupForm.formErrors].
  split.
  - intros Hij.
    assert (Hn : SignupForm.input_name i ≠ SignupForm.input_name j)
      by (intros H; apply Hij, ChangeFacts.signup_input_name_inj, H).
    destruct (truthy (read fe (SignupForm.input_name i))) eqn:Hi,
             (truthy (read fe (SignupForm.input_name j))) eqn:Hj;
      cbn [SignupForm.with_formErrors SignupForm.with_formData
           SignupForm.formErrors SignupForm.formData SignupForm.isLoading
           SignupForm.error SignupForm.showPassword
           SignupForm.showConfirmPassword];
      rewrite ?ChangeFacts.read_insert_other by congruence;
      rewrite ?Hi, ?Hj;
      unfold SignupForm.with_formErrors, SignupForm.with_formData;
      cbn [SignupForm.formErrors SignupForm.formData SignupForm.isLoading
           SignupForm.error SignupForm.showPassword
           SignupForm.showConfirmPassword];
      rewrite ?(OrderFacts.insert_None_commute fe _ _ Hn);
      destruct i, j; try contradiction; reflexivity.
  - destruct (truthy (read fe (SignupForm.input_name i))) eqn:Hi;
      cbn [SignupForm.with_formErrors SignupForm.with_formData
           SignupForm.formErrors SignupForm.formData SignupForm.isLoading
           SignupForm.error SignupForm.showPassword
           SignupForm.showConfirmPassword];
      rewrite ?ChangeFacts.truthy_read_insert_None, ?Hi;
      unfold SignupForm.with_formErrors, SignupForm.with_formData;
      cbn [SignupForm.formErrors SignupForm.formData SignupForm.isLoading
           SignupForm.error SignupForm.showPassword
           SignupForm.showConfirmPassword];
      destruct i; reflexivity.
Qed.

Module RoleFacts.
Import React SignupForm.

Lemma as_role_other value :
  value ≠ js "client" → value ≠ js "employee" → as_role value = None.
Proof.
  intros Hc He. unfold as_role, strict_eq.
  rewrite !bool_decide_eq_false_2 by assumption. reflexivity.
Qed.

Lemma handleRoleChange_run this s r :
  run (handleRoleChange this (role_value r)) s
  = ((if truthy (read (formErrors this) "role")
      then with_formErrors (fun prev => <["role" := None]> prev)
      else fun x => x)
       (with_formData
          (fun prev =>
             {| name := name prev; email := email prev;
                password := password prev;
                confirmPassword := confirmPassword prev; role := r |}) s),
     [], Finished tt).
Proof.
  unfold handleRoleChange. rewrite SignupFacts.as_role_value.
  destruct (truthy _); reflexivity.
Qed.

End RoleFacts.

(** X9.  [handleRoleChange] of the signup form: a value that is neither
    ["client"] nor ["employee"] leaves the state as it is; one of the two
    becomes the role of the form, the button of that role and only that
    one gets the variant [default], no text stands under the role
    buttons any more, and the inputs, the other errors, the flag and the
    banner are untouched.  The handler does nothing outside the
    component. *)
Theorem signup_handleRoleChange_effect (s : SignupForm.State)
        (value : jsstring) :
  ∃ s',
    React.run (SignupForm.handleRoleChange s value) s
    = (s', [], React.Finished tt)
    ∧ (value ≠ js "client" → value ≠ js "employee" → s' = s)
    ∧ (∀ r, value = SignupForm.role_value r →
            SignupForm.role (SignupForm.formData s') = r
            ∧ SignupView.client_variant s'
              = (if r is SignupForm.client then js "default" else js "outline")
            ∧ SignupView.employee_variant s'
              = (if r is SignupForm.employee then js "default" else js "outline")
            ∧ (∀ i, SignupView.input_value s' i = SignupView.input_value s i)
            ∧ SignupView.field_error s' "role" = None
            ∧ (∀ key, key ≠ "role" →
                      read (SignupForm.formErrors s') key
                      = read (SignupForm.formErrors s) key)
            ∧ SignupForm.isLoading s' = SignupForm.isLoading s
            ∧ SignupForm.error s' = SignupForm.error s).
Proof.
  destruct (decide (value = js "client")) as [Hc|Hc];
    [|destruct (decide (value = js "employee")) as [He|He]].
  3: { eexists. split.
       - unfold SignupForm.handleRoleChange.
         rewrite RoleFacts.as_role_other by assumption. reflexivity.
       - split; [reflexivity|].
         intros [|] Hr; [destruct Hc | destruct He]; exact Hr. }
  all: assert (Hv : ∃ r0, value = SignupForm.role_value r0)
         by (first [exists SignupForm.client; assumption
                   | exists SignupForm.employee; assumption]);
       destruct Hv as [r0 ->];
       (eexists; split; [apply RoleFacts.handleRoleChange_run|]);
       (split; [intros H1 H2; destruct r0; [destruct H1 | destruct H2]; reflexivity|]);
       intros r Hr;
       assert (r0 = r) as ->
         by (destruct r0, r; first [reflexivity | discriminate Hr]);
       unfold SignupView.field_error, SignupView.client_variant,
         SignupView.employee_variant;
       destruct (truthy (read (SignupForm.formErrors s) "role")) eqn:Ht;
       cbn [SignupForm.with_formErrors SignupForm.with_formData
            SignupForm.formErrors SignupForm.formData SignupForm.isLoading
            SignupForm.error SignupForm.role];
       rewrite ?ChangeFacts.truthy_read_insert_None, ?Ht;
       (split; [reflexivity|]);
       (split; [destruct r; reflexivity|]);
       (split; [destruct r; reflexivity|]);
       (split; [intros i; destruct i; reflexivity|]);
       (split; [reflexivity|]);
       (split; [intros key Hk;
                first [apply ChangeFacts.read_insert_other, Hk | reflexivity]|]);
       split; reflexivity.
Qed.

(* ===================================================================== *)
(** ** Further properties: the life of a page *)
(* ===================================================================== *)

Module PageFacts.
Import React.

(** The moves of [Play] are steps of the page. *)
Lemma user_step {S UIEvent} (enabled : S → UIEvent → bool)
      (handler : S → UIEvent → Prog S unit) c ev :
  enabled (state c) ev = true →
  step enabled handler c (User ev) (Play.user handler c ev).
Proof.
  intros Hen. unfold Play.user.
  destruct (run (handler (state c) ev) (state c)) as [[s' t] r] eqn:Hrun.
  apply step_user; assumption.
Qed.

Lemma settle_step {S UIEvent} (enabled : S → UIEvent → bool)
      (handler : S → UIEvent → Prog S unit) c o :
  inflight c ≠ [] →
  step enabled handler c (Settled o) (Play.settle c o).
Proof.
  intros Hne. unfold Play.settle.
  destruct (inflight c) as [|k after] eqn:Hin; [contradiction|].
  destruct (run (k o) (state c)) as [[s' t] r] eqn:Hrun.
  apply (step_settled enabled handler c o k [] after s' t r); assumption.
Qed.

Lemma quiet_insert_None (m : gmap string (option jsstring)) k :
  (∀ key, truthy (read m key) = false) →
  ∀ key, truthy (read (<[k := None]> m) key) = false.
Proof.
  intros H key. destruct (decide (key = k)) as [->|Hne].
  - apply ChangeFacts.truthy_read_insert_None.
  - rewrite ChangeFacts.read_insert_other by exact Hne. apply H.
Qed.

(** *** The login page *)

Lemma login_inv_step c l c' :
  LoginPage.page_inv c →
  step LoginForm.enabled LoginForm.handler c l c' →
  LoginPage.page_inv c'.
Proof.
  intros [Htr Hfl] Hstep.
  destruct Hstep as [c ev s' t r Hen Hrun
                    |c o k before after s' t r Hin Hrun].
  - destruct ev as [i v| |]; cbn [LoginForm.handler] in Hrun.
    + rewrite ChangeFacts.login_handleChange_run in Hrun.
      injection Hrun as <- <- <-.
      split; cbn [trace inflight state pending]; rewrite app_nil_r;
        [exact Htr|].
      destruct (inflight c) as [|k [|k' rest]]; [| |exact Hfl].
      * destruct (truthy _); exact Hfl.
      * destruct Hfl as (Hl & He & Hq & Hk).
        destruct (truthy _);
          (split; [exact Hl|]); (split; [exact He|]); (split; [|exact Hk]);
          first [exact Hq | apply quiet_insert_None, Hq].
    + injection Hrun as <- <- <-.
      split; cbn [trace inflight state pending]; rewrite app_nil_r;
        [exact Htr|].
      destruct (inflight c) as [|k [|k' rest]]; exact Hfl.
    + cbn in Hen. unfold LoginForm.submit_disabled in Hen.
      apply negb_true_iff in Hen.
      destruct (inflight c) as [|k [|k' rest]] eqn:Hin;
        [|destruct Hfl as [Hl _]; congruence | contradiction].
      destruct (Zod.parse (LoginForm.loginSchema (LoginForm.formData (state c))))
        as [errs|] eqn:Hparse.
      * rewrite (LoginFacts.login_handleSubmit_invalid _ _ errs Hparse) in Hrun.
        injection Hrun as <- <- <-.
        split; cbn [trace inflight state pending]; rewrite ?Hin.
        -- apply Forall_app. split; [exact Htr|]. repeat constructor.
        -- exact Hen.
      * destruct (LoginFacts.login_handleSubmit_valid _ (state c) Hparse)
          as (k & Hr & Hf & Hj).
        rewrite Hr in Hrun. injection Hrun as <- <- <-.
        split; cbn [trace inflight state pending]; rewrite ?Hin.
        -- apply Forall_app. split; [exact Htr|].
           repeat constructor. exists (LoginForm.formData (state c)).
           split; [reflexivity | exact Hparse].
        -- split; [reflexivity|]. split; [reflexivity|].
           split; [|split; assumption].
           intros key. apply (f_equal truthy (ValidationFacts.read_empty key)).
  - rewrite Hin in Hfl.
    destruct before as [|b before]; cbn in Hfl;
      [|destruct before; cbn in Hfl; contradiction].
    destruct after as [|a after]; [|contradiction].
    destruct Hfl as (Hl & He & Hq & Hf & Hj).
    destruct o; [rewrite Hf in Hrun | rewrite Hj in Hrun];
      injection Hrun as <- <- <-;
      (split; cbn [trace inflight state pending app];
       [apply Forall_app; split; [exact Htr|]; repeat constructor
       |reflexivity]).
Qed.

Lemma login_inv_reachable c :
  reachable LoginForm.enabled LoginForm.handler LoginForm.initial c →
  LoginPage.page_inv c.
Proof.
  induction 1 as [|c l c' _ IH Hstep].
  - split; [constructor | reflexivity].
  - eapply login_inv_step; eassumption.
Qed.

Lemma login_submitted_reachable :
  reachable LoginForm.enabled LoginForm.handler LoginForm.initial
    (LoginPage.submitted "you@example.com" "12345678").
Proof.
  unfold LoginPage.submitted.
  repeat (eapply reach_step; [|apply user_step; reflexivity]).
  apply reach_mount.
Qed.

(** *** The signup page *)

Lemma signup_inv_step c l c' :
  SignupPage.page_inv c →
  step SignupForm.enabled SignupForm.handler c l c' →
  SignupPage.page_inv c'.
Proof.
  intros [Htr Hfl] Hstep.
  destruct Hstep as [c ev s' t r Hen Hrun
                    |c o k before after s' t r Hin Hrun].
  - destruct ev as [i v|ro| | |]; cbn [SignupForm.handler] in Hrun.
    + rewrite ChangeFacts.signup_handleChange_run in Hrun.
      injection Hrun as <- <- <-.
      split; cbn [trace inflight state pending]; rewrite app_nil_r;
        [exact Htr|].
      destruct (inflight c) as [|k [|k' rest]]; [| |exact Hfl].
      * destruct (truthy _); exact Hfl.
      * destruct Hfl as (Hl & He & Hq & Hk).
        destruct (truthy _);
          (split; [exact Hl|]); (split; [exact He|]); (split; [|exact Hk]);
          first [exact Hq | apply quiet_insert_None, Hq].
    + rewrite RoleFacts.handleRoleChange_run in Hrun.
      injection Hrun as <- <- <-.
      split; cbn [trace inflight state pending]; rewrite app_nil_r;
        [exact Htr|].
      destruct (inflight c) as [|k [|k' rest]]; [| |exact Hfl].
      * destruct (truthy _); exact Hfl.
      * destruct Hfl as (Hl & He & Hq & Hk).
        destruct (truthy _);
          (split; [exact Hl|]); (split; [exact He|]); (split; [|exact Hk]);
          first [exact Hq | apply quiet_insert_None, Hq].
    + injection Hrun as <- <- <-.
      split; cbn [trace inflight state pending]; rewrite app_nil_r;
        [exact Htr|].
      destruct (inflight c) as [|k [|k' rest]]; exact Hfl.
    + injection Hrun as <- <- <-.
      split; cbn [trace inflight state pending]; rewrite app_nil_r;
        [exact Htr|].
      destruct (inflight c) as [|k [|k' rest]]; exact Hfl.
    + cbn in Hen. unfold SignupForm.submit_disabled in Hen.
      apply negb_true_iff in Hen.
      destruct (inflight c) as [|k [|k' rest]] eqn:Hin;
        [|destruct Hfl as [Hl _]; congruence | contradiction].
      destruct (Zod.parse (SignupForm.signupSchema
                             (SignupForm.formData (state c))))
        as [errs|] eqn:Hparse.
      * rewrite (SignupFacts.signup_handleSubmit_invalid _ _ errs Hparse)
          in Hrun.
        injection Hrun as <- <- <-.
        split; cbn [trace inflight state pending]; rewrite ?Hin.
        -- apply Forall_app. split; [exact Htr|]. repeat constructor.
        -- exact Hen.
      * destruct (SignupFacts.signup_handleSubmit_valid _ (state c) Hparse)
          as (k & Hr & Hf & Hj).
        rewrite Hr in Hrun. injection Hrun as <- <- <-.
        split; cbn [trace inflight state pending]; rewrite ?Hin.
        -- apply Forall_app. split; [exact Htr|].
           repeat constructor. exists (SignupForm.formData (state c)).
           split; [reflexivity | exact Hparse].
        -- split; [reflexivity|]. split; [reflexivity|].
           split; [|split; assumption].
           intros key. apply (f_equal truthy (ValidationFacts.read_empty key)).
  - rewrite Hin in Hfl.
    destruct before as [|b before]; cbn in Hfl;
      [|destruct before; cbn in Hfl; contradiction].
    destruct after as [|a after]; [|contradiction].
    destruct Hfl as (Hl & He & Hq & Hf & Hj).
    destruct o; [rewrite Hf in Hrun | rewrite Hj in Hrun];
      injection Hrun as <- <- <-;
      (split; cbn [trace inflight state pending app];
       [apply Forall_app; split; [exact Htr|]; repeat constructor
       |reflexivity]).
Qed.

Lemma signup_inv_reachable c :
  reachable SignupForm.enabled SignupForm.handler SignupForm.initial c →
  SignupPage.page_inv c.
Proof.
  induction 1 as [|c l c' _ IH Hstep].
  - split; [constructor | reflexivity].
  - eapply signup_inv_step; eassumption.
Qed.

Lemma signup_submitted_reachable :
  reachable SignupForm.enabled SignupForm.handler SignupForm.initial
    (SignupPage.submitted "Amina" "amina@example.com" "s3cretpass"
       "s3cretpass" SignupForm.employee).
Proof.
  unfold SignupPage.submitted.
  repeat (eapply reach_step; [|apply user_step; reflexivity]).
  apply reach_mount.
Qed.

End PageFacts.

(** X10.  Over the whole life of a login page, every request it posts
    goes to [/auth/login] with exactly the two keys [email] and
    [password], the address matching the e-mail pattern and the password
    having eight code units or more; every route it pushes is ["/"];
    and it never writes to the console. *)
Theorem login_requests_accepted (c : React.Page LoginForm.State) :
  React.reachable LoginForm.enabled LoginForm.handler LoginForm.initial c →
  (∀ url body,
      React.Posted url body ∈ React.trace c →
      url = js "/auth/login"
      ∧ ∃ e p, body = {[ "email" := React.JString e;
                         "password" := React.JString p ]}
               ∧ Regex.matches Zod.emailRegex e = true
               ∧ (8 ≤ List.length p)%nat)
  ∧ (∀ href, React.Pushed href ∈ React.trace c → href = js "/")
  ∧ (∀ msg, React.Logged msg ∉ React.trace c).
Proof.
  intros Hreach.
  destruct (PageFacts.login_inv_reachable c Hreach) as [Htr _].
  rewrite Forall_forall in Htr.
  split; [|split].
  - intros url body Hin. destruct (Htr _ Hin) as (Hurl & d & Hbody & Hok).
    split; [exact Hurl|].
    apply LoginFacts.login_schema_check in Hok as [He Hp].
    exists (LoginForm.email d), (LoginForm.password d). auto.
  - intros href Hin. exact (Htr _ Hin).
  - intros msg Hin. exact (Htr _ Hin).
Qed.

Lemma login_requests_accepted_witness :
  (∀ url body,
      React.Posted url body
        ∈ React.trace (LoginPage.submitted "you@example.com" "12345678") →
      url = js "/auth/login"
      ∧ ∃ e p, body = {[ "email" := React.JString e;
                         "password" := React.JString p ]}
               ∧ Regex.matches Zod.emailRegex e = true
               ∧ (8 ≤ List.length p)%nat)
  ∧ (∀ href,
        React.Pushed href
          ∈ React.trace (LoginPage.submitted "you@example.com" "12345678") →
        href = js "/")
  ∧ (∀ msg,
        React.Logged msg
          ∉ React.trace (LoginPage.submitted "you@example.com" "12345678")).
Proof.
  apply (login_requests_accepted
           (LoginPage.submitted "you@example.com" "12345678")).
  apply PageFacts.login_submitted_reachable.
Defined.

(** X11.  Over the whole life of a signup page, every request it posts
    goes to [/auth/signup] with exactly the five keys of the body; the
    name has two code units or more, the address matches the e-mail
    pattern, the password has eight code units or more,
    [password_confirmation] is the password, and [role_id] is 3 or 2;
    every route it pushes is ["/"]. *)
Theorem signup_requests_accepted (c : React.Page SignupForm.State) :
  React.reachable SignupForm.enabled SignupForm.handler SignupForm.initial c →
  (∀ url body,
      React.Posted url body ∈ React.trace c →
      url = js "/auth/signup"
      ∧ ∃ n e p r,
          body = {[ "name" := React.JString n;
                    "email" := React.JString e;
                    "password" := React.JString p;
                    "password_confirmation" := React.JString p;
                    "role_id" :=
                      React.JNumber
                        (if r is SignupForm.client then 3 else 2) ]}
          ∧ (2 ≤ List.length n)%nat
          ∧ Regex.matches Zod.emailRegex e = true
          ∧ (8 ≤ List.length p)%nat)
  ∧ (∀ href, React.Pushed href ∈ React.trace c → href = js "/").
Proof.
  intros Hreach.
  destruct (PageFacts.signup_inv_reachable c Hreach) as [Htr _].
  rewrite Forall_forall in Htr.
  split.
  - intros url body Hin. destruct (Htr _ Hin) as (Hurl & d & Hbody & Hok).
    split; [exact Hurl|].
    apply SignupFacts.signup_schema_check in Hok as (Hn & He & Hp & Hc).
    exists (SignupForm.name d), (SignupForm.email d), (SignupForm.password d),
      (SignupForm.role d).
    rewrite Hbody, SignupFacts.roleId_eq, <- Hc.
    repeat split; assumption.
  - intros href Hin. exact (Htr _ Hin).
Qed.

Lemma signup_requests_accepted_witness :
  (∀ url body,
      React.Posted url body
        ∈ React.trace (SignupPage.submitted "Amina" "amina@example.com"
                         "s3cretpass" "s3cretpass" SignupForm.employee) →
      url = js "/auth/signup"
      ∧ ∃ n e p r,
          body = {[ "name" := React.JString n;
                    "email" := React.JString e;
                    "password" := React.JString p;
                    "password_confirmation" := React.JString p;
                    "role_id" :=
                      React.JNumber
                        (if r is SignupForm.client then 3 else 2) ]}
          ∧ (2 ≤ List.length n)%nat
          ∧ Regex.matches Zod.emailRegex e = true
          ∧ (8 ≤ List.length p)%nat)
  ∧ (∀ href,
        React.Pushed href
          ∈ React.trace (SignupPage.submitted "Amina" "amina@example.com"
                           "s3cretpass" "s3cretpass" SignupForm.employee) →
        href = js "/").
Proof.
  apply (signup_requests_accepted
           (SignupPage.submitted "Amina" "amina@example.com" "s3cretpass"
              "s3cretpass" SignupForm.employee)).
  apply PageFacts.signup_submitted_reachable.
Defined.

(** X12.  While a request of the login page is in flight the page shows
    no error: when [isLoading] is [true] on a reachable page, the banner
    is absent and no text stands under any field. *)
Theorem login_quiet_in_flight (c : React.Page LoginForm.State) :
  React.reachable LoginForm.enabled LoginForm.handler LoginForm.initial c →
  LoginForm.isLoading (React.state c) = true →
  LoginView.banner (React.state c) = None
  ∧ ∀ key, LoginView.field_error (React.state c) key = None.
Proof.
  intros Hreach Hup.
  destruct (PageFacts.login_inv_reachable c Hreach) as [_ Hfl].
  destruct (React.inflight c) as [|k [|k' rest]];
    [congruence | | contradiction].
  destruct Hfl as (_ & He & Hq & _).
  unfold LoginView.banner, LoginView.field_error.
  split; [rewrite He; reflexivity|].
  intros key. rewrite Hq. reflexivity.
Qed.

Lemma login_quiet_in_flight_witness :
  LoginView.banner
    (React.state (LoginPage.submitted "you@example.com" "12345678")) = None
  ∧ ∀ key,
      LoginView.field_error
        (React.state (LoginPage.submitted "you@example.com" "12345678")) key
      = None.
Proof.
  apply (login_quiet_in_flight
           (LoginPage.submitted "you@example.com" "12345678")).
  - apply PageFacts.login_submitted_reachable.
  - vm_compute. reflexivity.
Defined.

(** X13.  While a request of the signup page is in flight the page shows
    no error: when [isLoading] is [true] on a reachable page, the banner
    is absent and no text stands under any field or under the role
    buttons. *)
Theorem signup_quiet_in_flight (c : React.Page SignupForm.State) :
  React.reachable SignupForm.enabled SignupForm.handler SignupForm.initial c →
  SignupForm.isLoading (React.state c) = true →
  SignupView.banner (React.state c) = None
  ∧ ∀ key, SignupView.field_error (React.state c) key = None.
Proof.
  intros Hreach Hup.
  destruct (PageFacts.signup_inv_reachable c Hreach) as [_ Hfl].
  destruct (React.inflight c) as [|k [|k' rest]];
    [congruence | | contradiction].
  destruct Hfl as (_ & He & Hq & _).
  unfold SignupView.banner, SignupView.field_error.
  split; [rewrite He; reflexivity|].
  intros key. rewrite Hq. reflexivity.
Qed.

Lemma signup_quiet_in_flight_witness :
  SignupView.banner
    (React.state (SignupPage.submitted "Amina" "amina@example.com"
                    "s3cretpass" "s3cretpass" SignupForm.employee)) = None
  ∧ ∀ key,
      SignupView.field_error
        (React.state (SignupPage.submitted "Amina" "amina@example.com"
                        "s3cretpass" "s3cretpass" SignupForm.employee)) key
      = None.
Proof.
  apply (signup_quiet_in_flight
           (SignupPage.submitted "Amina" "amina@example.com" "s3cretpass"
              "s3cretpass" SignupForm.employee)).
  - apply PageFacts.signup_submitted_reachable.
  - vm_compute. reflexivity.
Defined.

(** X14.  What one step of a reachable login page does.  Typing or
    toggling the password does nothing outside the component and leaves
    the flag and the banner alone; a submit never pushes a route and
    keeps what the user typed; a fulfilled request pushes ["/"] and only
    lowers the flag; a rejected request pushes nothing, sets the banner
    to the message of the form and lowers the flag, and keeps what the
    user typed and the errors under the fields. *)
Theorem login_step_effect (c c' : React.Page LoginForm.State)
        (l : React.Label LoginForm.UIEvent) :
  React.reachable LoginForm.enabled LoginForm.handler LoginForm.initial c →
  React.step LoginForm.enabled LoginForm.handler c l c' →
  ∃ t,
    React.trace c' = React.trace c ++ t
    ∧ match l with
      | React.User LoginForm.Submit =>
          filter React.is_push t = []
          ∧ LoginForm.formData (React.state c')
            = LoginForm.formData (React.state c)
      | React.User _ =>
          t = []
          ∧ LoginForm.isLoading (React.state c')
            = LoginForm.isLoading (React.state c)
          ∧ LoginForm.error (React.state c') = LoginForm.error (React.state c)
      | React.Settled React.fulfilled =>
          t = [React.Pushed (js "/")]
          ∧ React.state c' = LoginForm.with_isLoading false (React.state c)
      | React.Settled React.rejected =>
          t = []
          ∧ React.state c'
            = LoginForm.with_isLoading false
                (LoginForm.with_error
                   (Some (js "Invalid email or password. Please try again."))
                   (React.state c))
      end.
Proof.
  intros Hreach Hstep.
  destruct (PageFacts.login_inv_reachable c Hreach) as [_ Hfl].
  destruct Hstep as [c ev s' t r Hen Hrun
                    |c o k before after s' t r Hin Hrun];
    exists t; (split; [reflexivity|]); cbn [React.state].
  - destruct ev as [i v| |]; cbn [LoginForm.handler] in Hrun.
    + rewrite ChangeFacts.login_handleChange_run in Hrun.
      injection Hrun as <- <- <-.
      destruct (truthy _); repeat split; reflexivity.
    + injection Hrun as <- <- <-. repeat split; reflexivity.
    + destruct (Zod.parse (LoginForm.loginSchema
                             (LoginForm.formData (React.state c))))
        as [errs|] eqn:Hparse.
      * rewrite (LoginFacts.login_handleSubmit_invalid _ _ errs Hparse) in Hrun.
        injection Hrun as <- <- <-. split; reflexivity.
      * destruct (LoginFacts.login_handleSubmit_valid _ (React.state c) Hparse)
          as (k & Hr & _).
        rewrite Hr in Hrun. injection Hrun as <- <- <-. split; reflexivity.
  - rewrite Hin in Hfl.
    destruct before as [|b before]; cbn in Hfl;
      [|destruct before; cbn in Hfl; contradiction].
    destruct after as [|a after]; [|contradiction].
    destruct Hfl as (_ & _ & _ & Hf & Hj).
    destruct o; [rewrite Hf in Hrun | rewrite Hj in Hrun];
      injection Hrun as <- <- <-; split; reflexivity.
Qed.

Lemma login_step_effect_witness :
  ∃ t,
    React.trace
      (Play.settle (LoginPage.submitted "you@example.com" "12345678")
         React.rejected)
    = React.trace (LoginPage.submitted "you@example.com" "12345678") ++ t
    ∧ t = []
    ∧ React.state
        (Play.settle (LoginPage.submitted "you@example.com" "12345678")
           React.rejected)
      = LoginForm.with_isLoading false
          (LoginForm.with_error
             (Some (js "Invalid email or password. Please try again."))
             (React.state (LoginPage.submitted "you@example.com" "12345678"))).
Proof.
  apply (login_step_effect
           (LoginPage.submitted "you@example.com" "12345678")
           (Play.settle (LoginPage.submitted "you@example.com" "12345678")
              React.rejected)
           (React.Settled React.rejected)).
  - apply PageFacts.login_submitted_reachable.
  - apply PageFacts.settle_step. vm_compute. discriminate.
Defined.

(** X15.  What one step of a reachable signup page does.  Typing,
    choosing a role or toggling a password does nothing outside the
    component and leaves the flag and the banner alone; a submit never
    pushes a route and keeps what the user typed; a fulfilled request
    logs, pushes ["/"] and only lowers the flag; a rejected request
    pushes nothing, sets the banner to the message of the form and
    lowers the flag, and keeps what the user typed and the errors under
    the fields. *)
Theorem signup_step_effect (c c' : React.Page SignupForm.State)
        (l : React.Label SignupForm.UIEvent) :
  React.reachable SignupForm.enabled SignupForm.handler SignupForm.initial c →
  React.step SignupForm.enabled SignupForm.handler c l c' →
  ∃ t,
    React.trace c' = React.trace c ++ t
    ∧ match l with
      | React.User SignupForm.Submit =>
          filter React.is_push t = []
          ∧ SignupForm.formData (React.state c')
            = SignupForm.formData (React.state c)
      | React.User _ =>
          t = []
          ∧ SignupForm.isLoading (React.state c')
            = SignupForm.isLoading (React.state c)
          ∧ SignupForm.error (React.state c')
            = SignupForm.error (React.state c)
      | React.Settled React.fulfilled =>
          t = [React.Logged (js "Signup successful"); React.Pushed (js "/")]
          ∧ React.state c' = SignupForm.with_isLoading false (React.state c)
      | React.Settled React.rejected =>
          t = []
          ∧ React.state c'
            = SignupForm.with_isLoading false
                (SignupForm.with_error
                   (Some (js "Registration failed. Please try again."))
                   (React.state c))
      end.
Proof.
  intros Hreach Hstep.
  destruct (PageFacts.signup_inv_reachable c Hreach) as [_ Hfl].
  destruct Hstep as [c ev s' t r Hen Hrun
                    |c o k before after s' t r Hin Hrun];
    exists t; (split; [reflexivity|]); cbn [React.state].
  - destruct ev as [i v|ro| | |]; cbn [SignupForm.handler] in Hrun.
    + rewrite ChangeFacts.signup_handleChange_run in Hrun.
      injection Hrun as <- <- <-.
      destruct (truthy _); repeat split; reflexivity.
    + rewrite RoleFacts.handleRoleChange_run in Hrun.
      injection Hrun as <- <- <-.
      destruct (truthy _); repeat split; reflexivity.
    + injection Hrun as <- <- <-. repeat split; reflexivity.
    + injection Hrun as <- <- <-. repeat split; reflexivity.
    + destruct (Zod.parse (SignupForm.signupSchema
                             (SignupForm.formData (React.state c))))
        as [errs|] eqn:Hparse.
      * rewrite (SignupFacts.signup_handleSubmit_invalid _ _ errs Hparse)
          in Hrun.
        injection Hrun as <- <- <-. split; reflexivity.
      * destruct (SignupFacts.signup_handleSubmit_valid _ (React.state c) Hparse)
          as (k & Hr & _).
        rewrite Hr in Hrun. injection Hrun as <- <- <-. split; reflexivity.
  - rewrite Hin in Hfl.
    destruct before as [|b before]; cbn in Hfl;
      [|destruct before; cbn in Hfl; contradiction].
    destruct after as [|a after]; [|contradiction].
    destruct Hfl as (_ & _ & _ & Hf & Hj).
    destruct o; [rewrite Hf in Hrun | rewrite Hj in Hrun];
      injection Hrun as <- <- <-; split; reflexivity.
Qed.

Lemma signup_step_effect_witness :
  ∃ t,
    React.trace
      (Play.settle (SignupPage.submitted "Amina" "amina@example.com"
                      "s3cretpass" "s3cretpass" SignupForm.employee)
         React.fulfilled)
    = React.trace (SignupPage.submitted "Amina" "amina@example.com"
                     "s3cretpass" "s3cretpass" SignupForm.employee) ++ t
    ∧ t = [React.Logged (js "Signup successful"); React.Pushed (js "/")]
    ∧ React.state
        (Play.settle (SignupPage.submitted "Amina" "amina@example.com"
                        "s3cretpass" "s3cretpass" SignupForm.employee)
           React.fulfilled)
      = SignupForm.with_isLoading false
          (React.state (SignupPage.submitted "Amina" "amina@example.com"
                          "s3cretpass" "s3cretpass" SignupForm.employee)).
Proof.
  apply (signup_step_effect
           (SignupPage.submitted "Amina" "amina@example.com" "s3cretpass"
              "s3cretpass" SignupForm.employee)
           (Play.settle (SignupPage.submitted "Amina" "amina@example.com"
                           "s3cretpass" "s3cretpass" SignupForm.employee)
              React.fulfilled)
           (React.Settled React.fulfilled)).
  - apply PageFacts.signup_submitted_reachable.
  - apply PageFacts.settle_step. vm_compute. discriminate.
Defined.

(* ===================================================================== *)
(** ** Further properties: the bootstrap *)
(* ===================================================================== *)

(** X16.  The two registrations of [app.php] agree: a class is in the
    priority list exactly when an alias names it, so every middleware
    that a route can name by alias has its place in the order, and the
    order lists no class that no alias reaches. *)
Theorem aliases_cover_priority (class : string) :
  class ∈ Bootstrap.priorityList Bootstrap.app
  ↔ ∃ name, Bootstrap.customAliases Bootstrap.app !! name = Some class.
Proof.
  rewrite BootstrapFacts.app_priorityList, BootstrapFacts.app_customAliases.
  rewrite !elem_of_cons, elem_of_nil.
  split.
  - intros H.
    repeat (destruct H as [->|H];
            [first [ exists "jwt.auth"; reflexivity
                   | exists "jwt.guest"; reflexivity
                   | exists "admin"; reflexivity
                   | exists "employee"; reflexivity
                   | exists "client"; reflexivity ]|]).
    contradiction.
  - intros [name H]. rewrite !lookup_insert_Some, lookup_empty in H.
    repeat (destruct H as [[_ <-]|[_ H]]; [tauto|]).
    discriminate H.
Qed.

(* ===================================================================== *)
(** ** Further properties: showing the password *)
(* ===================================================================== *)

(** X17.  The eye button of the login form: one click turns the type of
    the password input from [password] to [text] or back, changes
    nothing else the page shows and does nothing outside the component;
    a second click gives back the page as it was. *)
Theorem login_toggle_password (c : React.Page LoginForm.State) :
  let c1 := Play.user LoginForm.handler c LoginForm.TogglePassword in
  LoginView.password_type (React.state c1)
  = (if strict_eq (LoginView.password_type (React.state c)) (js "password")
     then js "text" else js "password")
  ∧ (∀ i, LoginView.input_value (React.state c1) i
          = LoginView.input_value (React.state c) i)
  ∧ LoginForm.formErrors (React.state c1) = LoginForm.formErrors (React.state c)
  ∧ LoginForm.error (React.state c1) = LoginForm.error (React.state c)
  ∧ LoginForm.isLoading (React.state c1) = LoginForm.isLoading (React.state c)
  ∧ React.trace c1 = React.trace c
  ∧ React.inflight c1 = React.inflight c
  ∧ Play.user LoginForm.handler c1 LoginForm.TogglePassword = c.
Proof.
  destruct c as [[l e sp d fe] fl tr].
  cbv zeta. unfold Play.user. cbn -[js strict_eq].
  rewrite !app_nil_r, negb_involutive.
  unfold LoginView.password_type. cbn -[js strict_eq].
  repeat split. destruct sp; reflexivity.
Qed.

(** X18.  The two eye buttons of the signup form are independent: a
    click on one turns the type of its own input from [password] to
    [text] or back and leaves the type of the other input, the values,
    the errors, the flag and the banner alone; a second click on the
    same button gives back the page as it was, and clicks on the two
    buttons commute. *)
Theorem signup_toggle_passwords (c : React.Page SignupForm.State) :
  let c1 := Play.user SignupForm.handler c SignupForm.TogglePassword in
  let c2 := Play.user SignupForm.handler c SignupForm.ToggleConfirmPassword in
  (SignupView.password_type (React.state c1)
   = (if strict_eq (SignupView.password_type (React.state c)) (js "password")
      then js "text" else js "password")
   ∧ SignupView.confirmPassword_type (React.state c1)
     = SignupView.confirmPassword_type (React.state c))
  ∧ (SignupView.confirmPassword_type (React.state c2)
     = (if strict_eq (SignupView.confirmPassword_type (React.state c))
             (js "password")
        then js "text" else js "password")
     ∧ SignupView.password_type (React.state c2)
       = SignupView.password_type (React.state c))
  ∧ (∀ i, SignupView.input_value (React.state c1) i
          = SignupView.input_value (React.state c) i
          ∧ SignupView.input_value (React.state c2) i
            = SignupView.input_value (React.state c) i)
  ∧ Play.user SignupForm.handler c1 SignupForm.TogglePassword = c
  ∧ Play.user SignupForm.handler c2 SignupForm.ToggleConfirmPassword = c
  ∧ Play.user SignupForm.handler c1 SignupForm.ToggleConfirmPassword
    = Play.user SignupForm.handler c2 SignupForm.TogglePassword.
Proof.
  destruct c as [[l e sp scp d fe] fl tr].
  cbv zeta. unfold Play.user. cbn -[js strict_eq].
  rewrite !app_nil_r, !negb_involutive.
  unfold SignupView.password_type, SignupView.confirmPassword_type.
  cbn -[js strict_eq].
  repeat split; first [destruct sp; reflexivity | destruct scp; reflexivity].
Qed.
